(** * node-visca: the VISCA command object (command.ts)

    A shallow embedding of the [ViscaCommand] class: its packet encoder
    ([toPacket], [_header]), its decoder ([_parsePacket], [fromPacket]), the
    reply handlers ([handleAck], [handleError], [handleComplete]) and the
    zoom and focus drive builders, followed by the properties the
    specification states about them.

    JavaScript numbers are modelled as [Z] (the code only handles integers);
    the bit operators go through [ToInt32] as the language defines them.
    Mutation of [this] is explicit state passing: a method returns the updated
    object next to its result.  Calls of caller-supplied functions (the
    callbacks and the data parser) are recorded in a trace. *)

From Stdlib Require Import ZArith List String Ascii Bool Lia HexString.
From Stdlib Require Import DecimalString.
Import ListNotations.

#[local] Open Scope string_scope.
#[local] Open Scope list_scope.
#[local] Open Scope Z_scope.

(** ** JavaScript primitives used by the class *)

Module JS.

(** [ToInt32]: the operand conversion of every bit operator. *)
Definition to_int32 (z : Z) : Z :=
  let m := z mod 2 ^ 32 in
  if m <? 2 ^ 31 then m else m - 2 ^ 32.

(** [a & b], [a | b], [a << b], [a >> b]. *)
Definition band (a b : Z) : Z := Z.land (to_int32 a) (to_int32 b).
Definition bor (a b : Z) : Z := Z.lor (to_int32 a) (to_int32 b).
Definition shl (a b : Z) : Z := to_int32 (Z.shiftl (to_int32 a) (b mod 32)).
Definition sar (a b : Z) : Z := Z.shiftr (to_int32 a) (b mod 32).

(** An array read [a[i]] is [undefined] past the end; as the operand of a
    bit operator [undefined] converts to [0]. *)
Definition index (a : list Z) (i : nat) : option Z := nth_error a i.

Definition int_of (v : option Z) : Z :=
  match v with
  | Some z => z
  | None => 0
  end.

(** [v === k] for a possibly undefined [v] and a number [k]. *)
Definition strict_eq (v : option Z) (k : Z) : bool :=
  match v with
  | Some z => z =? k
  | None => false
  end.

(** [a.slice(start, end)]: negative bounds count from the end, both are
    clamped to the array. *)
Definition clamp_index (len i : Z) : Z :=
  if i <? 0 then Z.max (len + i) 0 else Z.min i len.

Definition slice (a : list Z) (start stop : Z) : list Z :=
  let len := Z.of_nat (List.length a) in
  let k := clamp_index len start in
  let final := clamp_index len stop in
  firstn (Z.to_nat (Z.max (final - k) 0)) (skipn (Z.to_nat k) a).

(** [a.splice(0, 1)]: the array after the removal, and the removed items. *)
Definition splice_first (a : list Z) : list Z * list Z :=
  match a with
  | [] => ([], [])
  | x :: rest => (rest, [x])
  end.

(** [n.toString(16)] on an integer. *)
Definition toString16 (n : Z) : string :=
  match n with
  | Z0 => "0"
  | Zpos p => HexString.Raw.of_pos p EmptyString
  | Zneg p => String "-" (HexString.Raw.of_pos p EmptyString)
  end.

(** The values a data parser may hand back (its return type is [any]):
    the parsers of this package return byte arrays, numbers, booleans and
    plain data aggregates. *)
Inductive value : Type :=
| Undefined
| Null
| Num (n : Z)
| Bool (b : bool)
| Str (s : string)
| Arr (a : list Z)
| Obj (name : string).

(** [v == undefined]. *)
Definition is_nullish (v : value) : bool :=
  match v with
  | Undefined | Null => true
  | _ => false
  end.

(** [v.length == 0] for a [v] that is not nullish: only arrays and strings
    have a [length]; elsewhere the read is [undefined], which is not
    loosely equal to [0]. *)
Definition length_is_zero (v : value) : bool :=
  match v with
  | Arr a => (Z.of_nat (List.length a) =? 0)
  | Str s => (Z.of_nat (String.length s) =? 0)
  | _ => false
  end.

(** The outcome of a call: a normal return or a thrown exception. *)
Inductive completion (A : Type) : Type :=
| Return (a : A)
| Throw (msg : string).
Arguments Return {A} a.
Arguments Throw {A} msg.

End JS.

(** A parameter with a default value: [undefined] selects the default. *)
Definition default {A : Type} (d : A) (o : option A) : A :=
  match o with
  | Some a => a
  | None => d
  end.

(** ** The protocol constants (constants.ts) *)

(** The constants module is imported as [C]; the class below lists the
    members this development reads. *)
Class Constants : Type := {
  MSGTYPE_COMMAND : Z;
  MSGTYPE_INQUIRY : Z;
  MSGTYPE_ADDRESS_SET : Z;
  MSGTYPE_NETCHANGE : Z;
  MSGTYPE_ACK : Z;
  MSGTYPE_COMPLETE : Z;
  MSGTYPE_ERROR : Z;
  MSGTYPE_CANCEL : Z;
  HEADERMASK_SOURCE : Z;
  HEADERMASK_RECIPIENT : Z;
  HEADERMASK_BROADCAST : Z;
  DATATYPE_CAMERA : Z;
  DATA_RESET : Z;
  CAM_ZOOM : Z
}.

(** Modelled from the spec: a reply type of constants.ts, which is not among
    the sources, is a reserved high-nibble value, combined with a socket in
    the low nibble. *)
Definition reply_nibble (m : Z) : Prop := 0 < m < 256 /\ m mod 16 = 0.

(** Modelled from the spec: a standalone request opcode of constants.ts is a
    single byte that never collides with a reply type combined with a
    socket. *)
Definition standalone_opcode `{C : Constants} (op : Z) : Prop :=
  0 <= op < 256 /\
  Z.land op 0xF0 <> MSGTYPE_ACK /\ Z.land op 0xF0 <> MSGTYPE_COMPLETE /\
  Z.land op 0xF0 <> MSGTYPE_ERROR /\ Z.land op 0xF0 <> MSGTYPE_CANCEL.

(** Modelled from the spec: what the specification says of the constants of
    constants.ts.  Command is 0x01 and Inquiry 0x09, Ack is 0x40 and Complete
    0x50; Error and Cancel are reply types; AddressSet and NetworkChange are
    standalone opcodes; the header masks select bits 6-4 (source), 2-0
    (recipient) and 3 (broadcast). *)
Record constants_wf `{C : Constants} : Prop := {
  wf_command : MSGTYPE_COMMAND = 0x01;
  wf_inquiry : MSGTYPE_INQUIRY = 0x09;
  wf_ack : MSGTYPE_ACK = 0x40;
  wf_complete : MSGTYPE_COMPLETE = 0x50;
  wf_error : reply_nibble MSGTYPE_ERROR;
  wf_cancel : reply_nibble MSGTYPE_CANCEL;
  wf_address_set : standalone_opcode MSGTYPE_ADDRESS_SET;
  wf_netchange : standalone_opcode MSGTYPE_NETCHANGE;
  wf_mask_source : HEADERMASK_SOURCE = 0x70;
  wf_mask_recipient : HEADERMASK_RECIPIENT = 0x07;
  wf_mask_broadcast : HEADERMASK_BROADCAST = 0x08
}.
Arguments constants_wf : clear implicits.

(** Modelled from the spec: a sample of constants.ts.  The values the
    specification gives are taken from it (message types 0x01, 0x09, 0x40,
    0x50, the header masks, the camera category 0x04 of the power-on frame);
    the others are the customary VISCA values and only feed the closed
    examples. *)
Definition visca_constants : Constants := {|
  MSGTYPE_COMMAND := 0x01;
  MSGTYPE_INQUIRY := 0x09;
  MSGTYPE_ADDRESS_SET := 0x30;
  MSGTYPE_NETCHANGE := 0x38;
  MSGTYPE_ACK := 0x40;
  MSGTYPE_COMPLETE := 0x50;
  MSGTYPE_ERROR := 0x60;
  MSGTYPE_CANCEL := 0x20;
  HEADERMASK_SOURCE := 0x70;
  HEADERMASK_RECIPIENT := 0x07;
  HEADERMASK_BROADCAST := 0x08;
  DATATYPE_CAMERA := 0x04;
  DATA_RESET := 0x00;
  CAM_ZOOM := 0x07
|}.

(** ** The command object *)

(** A caller-supplied callback, known by name; its calls are traced. *)
Definition callback : Type := string.

(** [dataParser: (x:number[])=>any]. *)
Definition parser : Type := list Z -> JS.value.

(** Modelled from the spec: [Parsers.NoParser.parse] of parsers.ts, which is
    not among the sources; the default parser is the identity. *)
Definition NoParser_parse : parser := fun data => JS.Arr data.

(** What the object does to the outside: it calls a callback with
    arguments, or it calls its data parser on raw bytes. *)
Inductive event : Type :=
| Invoke (f : callback) (args : list JS.value)
| Parse (raw : list Z).

Definition trace : Type := list event.

Record ViscaCommandParams : Type := {
  p_description : option string;
  p_source : option Z;
  p_recipient : option Z;
  p_broadcast : option bool;
  p_msgType : option Z;
  p_socket : option Z;
  p_dataType : option Z;
  p_data : option (list Z);
  p_onComplete : option callback;
  p_onError : option callback;
  p_onAck : option callback;
  p_dataParser : option parser;
  p_status : option Z
}.

(** The object literal [{}]. *)
Definition no_params : ViscaCommandParams := {|
  p_description := None; p_source := None; p_recipient := None;
  p_broadcast := None; p_msgType := None; p_socket := None;
  p_dataType := None; p_data := None; p_onComplete := None;
  p_onError := None; p_onAck := None; p_dataParser := None;
  p_status := None
|}.

Record ViscaCommand : Type := {
  source : Z;
  recipient : Z;
  broadcast : bool;
  msgType : Z;
  socket : Z;
  dataType : Z;
  data : list Z;
  packetHexString : string;
  status : Z;
  description : string;
  dataParser : option parser;
  onAck : option callback;
  onComplete : option callback;
  onError : option callback
}.

(** Field assignments [this.f = v]. *)
Definition set_broadcast (b : bool) (c : ViscaCommand) : ViscaCommand := {|
  source := source c; recipient := recipient c; broadcast := b;
  msgType := msgType c; socket := socket c; dataType := dataType c;
  data := data c; packetHexString := packetHexString c; status := status c;
  description := description c; dataParser := dataParser c;
  onAck := onAck c; onComplete := onComplete c; onError := onError c
|}.

Definition set_status (s : Z) (c : ViscaCommand) : ViscaCommand := {|
  source := source c; recipient := recipient c; broadcast := broadcast c;
  msgType := msgType c; socket := socket c; dataType := dataType c;
  data := data c; packetHexString := packetHexString c; status := s;
  description := description c; dataParser := dataParser c;
  onAck := onAck c; onComplete := onComplete c; onError := onError c
|}.

Definition set_packetHexString (s : string) (c : ViscaCommand) : ViscaCommand := {|
  source := source c; recipient := recipient c; broadcast := broadcast c;
  msgType := msgType c; socket := socket c; dataType := dataType c;
  data := data c; packetHexString := s; status := status c;
  description := description c; dataParser := dataParser c;
  onAck := onAck c; onComplete := onComplete c; onError := onError c
|}.

(** [_header]: the header byte; a recipient overrides the broadcast flag,
    which the method writes back into the object. *)
Definition _header (c : ViscaCommand) : ViscaCommand * Z :=
  let c := if recipient c >? -1 then set_broadcast false c else c in
  if negb (broadcast c)
  then (c, JS.bor (JS.bor 0x80 (JS.shl (source c) 4)) (JS.band (recipient c) 0x111))
  else (c, 0x88).

(** [_hexify]. *)
Definition _hexify (bytes : list Z) : string :=
  String.concat " " (map JS.toString16 bytes).

(** [toPacket]. *)
Definition toPacket (c : ViscaCommand) : ViscaCommand * list Z :=
  let '(c, header) := _header c in
  let qq := JS.bor (msgType c) (socket c) in
  let rr := dataType c in
  if rr >? 0
  then (c, [header; qq; rr] ++ data c ++ [0xff])
  else (c, [header; qq] ++ data c ++ [0xff]).

Section WithConstants.

Context `{C : Constants}.

(** The constructor, up to its last statement: the fields take the
    parameters or their defaults. *)
Definition assigned (p : ViscaCommandParams) : ViscaCommand := {|
  source := default 0 (p_source p);
  recipient := default (-1) (p_recipient p);
  broadcast := default true (p_broadcast p);
  msgType := default MSGTYPE_COMMAND (p_msgType p);
  socket := default 0 (p_socket p);
  dataType := default 0 (p_dataType p);
  data := default [] (p_data p);
  packetHexString := EmptyString;
  status := 0;
  description := default EmptyString (p_description p);
  dataParser := Some (default NoParser_parse (p_dataParser p));
  onAck := p_onAck p;
  onComplete := p_onComplete p;
  onError := p_onError p
|}.

(** The constructor: its last statement stores the hex string of the
    first encoding, which runs [_header] on the new object. *)
Definition new_ViscaCommand (p : ViscaCommandParams) : ViscaCommand :=
  let c := assigned p in
  let '(c, packet) := toPacket c in
  set_packetHexString (_hexify packet) c.

(** The four case labels of the switch in [_parsePacket]. *)
Definition is_request (byte1 : option Z) : bool :=
  JS.strict_eq byte1 MSGTYPE_COMMAND
  || JS.strict_eq byte1 MSGTYPE_INQUIRY
  || JS.strict_eq byte1 MSGTYPE_ADDRESS_SET
  || JS.strict_eq byte1 MSGTYPE_NETCHANGE.

(** [_parsePacket]. *)
Definition _parsePacket (c : ViscaCommand) (packet : list Z) : ViscaCommand :=
  let header := JS.int_of (JS.index packet 0) in
  let byte1 := JS.index packet 1 in
  let '(mt, sock) :=
    if is_request byte1
    then (JS.int_of byte1, 0)
    else (JS.band (JS.int_of byte1) 0xF0, JS.band (JS.int_of byte1) 0x0F) in
  let body := JS.slice packet 2 (Z.of_nat (List.length packet) - 1) in
  let '(dt, body) :=
    if Z.of_nat (List.length body) <? 2
    then (0, body)
    else (* [splice(0, 1)[0]]: the removed item is there, the body has two
            bytes or more *)
         let '(rest, removed) := JS.splice_first body in
         (JS.int_of (JS.index removed 0), rest) in
  {|
    source := JS.sar (JS.band header HEADERMASK_SOURCE) 4;
    recipient := JS.band header HEADERMASK_RECIPIENT;
    broadcast := (JS.sar (JS.band header HEADERMASK_BROADCAST) 3 =? 1);
    msgType := mt;
    socket := sock;
    dataType := dt;
    data := body;
    packetHexString := _hexify packet;
    status := status c;
    description := description c;
    dataParser := dataParser c;
    onAck := onAck c;
    onComplete := onComplete c;
    onError := onError c
  |}.

(** [fromPacket]: no statement of it, nor of [_parsePacket], throws. *)
Definition fromPacket (packet : list Z) : JS.completion ViscaCommand :=
  let v := new_ViscaCommand no_params in
  JS.Return (_parsePacket v packet).

(** [raw]. *)
Definition raw (recipient : Z) (bytes : list Z) : ViscaCommand :=
  let v := new_ViscaCommand {|
    p_description := None; p_source := None; p_recipient := Some recipient;
    p_broadcast := None; p_msgType := None; p_socket := None;
    p_dataType := None; p_data := None; p_onComplete := None;
    p_onError := None; p_onAck := None; p_dataParser := None;
    p_status := None |} in
  let '(v, header) := _header v in
  _parsePacket v ([header] ++ bytes ++ [0xff]).

(** ** The reply handlers *)

Definition invoke (f : option callback) (args : list JS.value) (t : trace) : trace :=
  match f with
  | Some g => t ++ [Invoke g args]
  | None => t
  end.

(** [handleAck]. *)
Definition handleAck (c : ViscaCommand) (t : trace) : ViscaCommand * trace :=
  let c := set_status MSGTYPE_ACK c in
  (c, invoke (onAck c) [] t).

(** [handleError]. *)
Definition handleError (c : ViscaCommand) (err : string) (t : trace)
  : ViscaCommand * trace :=
  let c := set_status MSGTYPE_ERROR c in
  (c, invoke (onError c) [JS.Str err] t).

(** The argument of [handleComplete] as a value. *)
Definition value_of_data (d : option (list Z)) : JS.value :=
  match d with
  | Some raw => JS.Arr raw
  | None => JS.Undefined
  end.

(** [handleComplete]: the parser runs when both it and the data are
    defined; the callback gets no argument for nullish or empty data. *)
Definition handleComplete (c : ViscaCommand) (d : option (list Z)) (t : trace)
  : ViscaCommand * trace :=
  let c := set_status MSGTYPE_COMPLETE c in
  let '(v, t) :=
    match dataParser c, d with
    | Some parse, Some raw => (parse raw, t ++ [Parse raw])
    | _, _ => (value_of_data d, t)
    end in
  if JS.is_nullish v || JS.length_is_zero v
  then (c, invoke (onComplete c) [] t)
  else (c, invoke (onComplete c) [v] t).

(** ** Builders *)

(** [cmd( recipient = -1, dataType, data = [], description = '' )]. *)
Definition cmd (recipient : option Z) (dataType : Z) (data : option (list Z))
    (description : option string) : ViscaCommand :=
  new_ViscaCommand {|
    p_description := Some (default EmptyString description);
    p_source := None;
    p_recipient := Some (default (-1) recipient);
    p_broadcast := None;
    p_msgType := Some MSGTYPE_COMMAND;
    p_socket := None;
    p_dataType := Some dataType;
    p_data := Some (default [] data);
    p_onComplete := None; p_onError := None; p_onAck := None;
    p_dataParser := None; p_status := None |}.

(** [cmdCamera( recipient = -1, data = [], description = '' )]. *)
Definition cmdCamera (recipient : option Z) (data : option (list Z))
    (description : option string) : ViscaCommand :=
  cmd (Some (default (-1) recipient)) DATATYPE_CAMERA
      (Some (default [] data)) (Some (default EmptyString description)).

(** [cmdCameraZoom( device, offinout = C.DATA_RESET, speed = -1 )]. *)
Definition cmdCameraZoom (device : Z) (offinout speed : option Z) : ViscaCommand :=
  let offinout := default DATA_RESET offinout in
  let speed := default (-1) speed in
  let data := offinout in
  let data :=
    if (speed >? -1) && negb (offinout =? DATA_RESET)
    then JS.shl data 8 + JS.band speed 7
    else data in
  let subcmd := [CAM_ZOOM; data] in
  cmdCamera (Some device) (Some subcmd) None.

(** [cmdCameraFocus( device, stopfarnear = C.DATA_RESET, speed = -1 )]. *)
Definition cmdCameraFocus (device : Z) (stopfarnear speed : option Z) : ViscaCommand :=
  let stopfarnear := default DATA_RESET stopfarnear in
  let speed := default (-1) speed in
  let data := stopfarnear in
  let data :=
    if (speed >? -1) && negb (stopfarnear =? DATA_RESET)
    then JS.shl data 8 + JS.band speed 7
    else data in
  let subcmd := [CAM_ZOOM; data] in
  cmdCamera (Some device) (Some subcmd) None.

End WithConstants.

(** ** Call sequences and what a frame carries *)

(** The seven fields a frame carries. *)
Definition wire_fields (c : ViscaCommand) : Z * Z * bool * Z * Z * Z * list Z :=
  (source c, recipient c, broadcast c, msgType c, socket c, dataType c, data c).

(** A call of one of the methods that run on a built command. *)
Inductive call : Type :=
| CallToPacket
| CallAck
| CallError (err : string)
| CallComplete (d : option (list Z)).

Definition step `{C : Constants} (k : call) (s : ViscaCommand * trace)
  : ViscaCommand * trace :=
  let '(c, t) := s in
  match k with
  | CallToPacket => (fst (toPacket c), t)
  | CallAck => handleAck c t
  | CallError err => handleError c err t
  | CallComplete d => handleComplete c d t
  end.

Fixpoint run `{C : Constants} (ks : list call) (s : ViscaCommand * trace)
  : ViscaCommand * trace :=
  match ks with
  | [] => s
  | k :: ks' => run ks' (step k s)
  end.

(** The raw data the parser was called on, in order. *)
Definition parser_calls (t : trace) : list (list Z) :=
  flat_map (fun e => match e with Parse raw => [raw] | Invoke _ _ => [] end) t.

(** The callback calls, in order. *)
Definition invocations (t : trace) : list (callback * list JS.value) :=
  flat_map (fun e => match e with Invoke f args => [(f, args)] | Parse _ => [] end) t.

(** The defined data handed to [handleComplete] along a call sequence. *)
Definition completed_data (ks : list call) : list (list Z) :=
  flat_map (fun k => match k with CallComplete (Some raw) => [raw] | _ => [] end) ks.

(** The number of handler calls of a call sequence. *)
Definition handler_calls (ks : list call) : nat :=
  List.length (filter (fun k => match k with CallToPacket => false | _ => true end) ks).

(** A frame the specification calls malformed: fewer than three bytes, or
    no terminator at its end. *)
Definition malformed (packet : list Z) : Prop :=
  (List.length packet < 3)%nat \/ last packet 0 <> 0xff.

(** The message byte combinations of the specification: a request opcode
    carries no socket, a reply type carries a socket in its low nibble. *)
Definition valid_message `{C : Constants} (m s : Z) : Prop :=
  ((m = MSGTYPE_COMMAND \/ m = MSGTYPE_INQUIRY \/
    m = MSGTYPE_ADDRESS_SET \/ m = MSGTYPE_NETCHANGE) /\ s = 0) \/
  ((m = MSGTYPE_ACK \/ m = MSGTYPE_COMPLETE \/
    m = MSGTYPE_ERROR \/ m = MSGTYPE_CANCEL) /\ 0 <= s <= 15).

(** The bodies that keep their split: a category byte goes with a payload,
    and without one the payload has at most one byte. *)
Definition valid_body (dt : Z) (d : list Z) : Prop :=
  (0 < dt /\ d <> []) \/ (dt = 0 /\ (List.length d <= 1)%nat).

(** ** Sample inputs *)

(** [{ recipient: r }]. *)
Definition params_recipient (r : Z) : ViscaCommandParams := {|
  p_description := None; p_source := None; p_recipient := Some r;
  p_broadcast := None; p_msgType := None; p_socket := None;
  p_dataType := None; p_data := None; p_onComplete := None;
  p_onError := None; p_onAck := None; p_dataParser := None;
  p_status := None
|}.

(** [{ recipient: r, broadcast: true }]. *)
Definition params_recipient_broadcast (r : Z) : ViscaCommandParams := {|
  p_description := None; p_source := None; p_recipient := Some r;
  p_broadcast := Some true; p_msgType := None; p_socket := None;
  p_dataType := None; p_data := None; p_onComplete := None;
  p_onError := None; p_onAck := None; p_dataParser := None;
  p_status := None
|}.

(** [{ recipient: 1, onAck, onComplete, onError, dataParser }]. *)
Definition params_callbacks (parse : option parser) : ViscaCommandParams := {|
  p_description := None; p_source := None; p_recipient := Some 1;
  p_broadcast := None; p_msgType := None; p_socket := None;
  p_dataType := None; p_data := None; p_onComplete := Some "onComplete";
  p_onError := Some "onError"; p_onAck := Some "onAck"; p_dataParser := parse;
  p_status := None
|}.

(** [{ source, recipient, msgType, socket, dataType, data }]. *)
Definition params_wire (s r m k dt : Z) (d : list Z) : ViscaCommandParams := {|
  p_description := None; p_source := Some s; p_recipient := Some r;
  p_broadcast := None; p_msgType := Some m; p_socket := Some k;
  p_dataType := Some dt; p_data := Some d; p_onComplete := None;
  p_onError := None; p_onAck := None; p_dataParser := None;
  p_status := None
|}.

(** The fields of a returned command, nothing for a throw. *)
Definition returned_fields (r : JS.completion ViscaCommand)
  : option (Z * Z * bool * Z * Z * Z * list Z) :=
  match r with
  | JS.Return c => Some (wire_fields c)
  | JS.Throw _ => None
  end.

(** ** More of the catalog, and the serial transport *)

(** [String(n)] on an integer, as a template literal inserts it. *)
Definition number_to_string (n : Z) : string :=
  NilZero.string_of_int (Z.to_int n).

(** More members of constants.ts, read by the builders below. *)
Class Catalog : Type := {
  DATA_MORE : Z;
  DATA_LESS : Z;
  DATA_ONVAL : Z;
  DATA_OFFVAL : Z;
  CAM_GAIN : Z;
  CAM_RGAIN : Z;
  CAM_BGAIN : Z;
  CAM_SHUTTER : Z;
  CAM_SHUTTER_DIRECT : Z;
  CAM_IRIS : Z;
  CAM_IRIS_DIRECT : Z;
  CAM_APERTURE : Z;
  CAM_APERTURE_DIRECT : Z
}.

(** The function of utils.ts the builders below call; utils.ts is not among
    the sources, and the function is a parameter. *)
Class Utils : Type := {
  i2v : Z -> list Z
}.

(** Modelled from the spec: a sample of the members above, with the
    customary VISCA values; it only feeds the closed examples. *)
Definition visca_catalog : Catalog := {|
  DATA_MORE := 0x02;
  DATA_LESS := 0x03;
  DATA_ONVAL := 0x02;
  DATA_OFFVAL := 0x03;
  CAM_GAIN := 0x0C;
  CAM_RGAIN := 0x03;
  CAM_BGAIN := 0x04;
  CAM_SHUTTER := 0x0A;
  CAM_SHUTTER_DIRECT := 0x4A;
  CAM_IRIS := 0x0B;
  CAM_IRIS_DIRECT := 0x4B;
  CAM_APERTURE := 0x02;
  CAM_APERTURE_DIRECT := 0x42
|}.

(** Modelled from the spec: the unsigned four-byte nibble expansion
    0xPQRS -> [0x0P, 0x0Q, 0x0R, 0x0S]; it only feeds the closed examples. *)
Definition nibble_utils : Utils := {|
  i2v := fun n =>
    [JS.band (JS.sar n 12) 0x0F; JS.band (JS.sar n 8) 0x0F;
     JS.band (JS.sar n 4) 0x0F; JS.band n 0x0F]
|}.

Section MoreBuilders.

Context `{C : Constants} `{K : Catalog} `{U : Utils}.

(** [inquire( recipient = -1, dataType, data, onComplete?, dataParser?,
    description = '' )]. *)
Definition inquire (recipient : option Z) (dataType : Z) (data : list Z)
    (onComplete : option callback) (dataParser : option parser)
    (description : option string) : ViscaCommand :=
  new_ViscaCommand {|
    p_description := Some (default EmptyString description);
    p_source := None;
    p_recipient := Some (default (-1) recipient);
    p_broadcast := None;
    p_msgType := Some MSGTYPE_INQUIRY;
    p_socket := None;
    p_dataType := Some dataType;
    p_data := Some data;
    p_onComplete := onComplete; p_onError := None; p_onAck := None;
    p_dataParser := dataParser; p_status := None |}.

(** [cancel( recipient = -1, socket = 0 )]. *)
Definition cancel (recipient socket : option Z) : ViscaCommand :=
  let recipient := default (-1) recipient in
  let socket := default 0 socket in
  new_ViscaCommand {|
    p_description :=
      Some ("cancel command in buffer " ++ number_to_string socket)%string;
    p_source := None;
    p_recipient := Some recipient;
    p_broadcast := None;
    p_msgType := Some (JS.bor MSGTYPE_CANCEL socket);
    p_socket := None;
    p_dataType := None;
    p_data := None;
    p_onComplete := None; p_onError := None; p_onAck := None;
    p_dataParser := None; p_status := None |}.

(** [inqCamera( recipient = -1, query, onComplete?, dataParser?,
    description = '' )]. *)
Definition inqCamera (recipient : option Z) (query : list Z)
    (onComplete : option callback) (dataParser : option parser)
    (description : option string) : ViscaCommand :=
  inquire (Some (default (-1) recipient)) DATATYPE_CAMERA query onComplete
          dataParser (Some (default EmptyString description)).

(** [cmdCameraZoomStop], [cmdCameraZoomIn], [cmdCameraZoomOut]. *)
Definition cmdCameraZoomStop (device : Z) : ViscaCommand :=
  cmdCameraZoom device (Some DATA_RESET) None.

Definition cmdCameraZoomIn (device : Z) (speed : option Z) : ViscaCommand :=
  cmdCameraZoom device (Some DATA_MORE) (Some (default (-1) speed)).

Definition cmdCameraZoomOut (device : Z) (speed : option Z) : ViscaCommand :=
  cmdCameraZoom device (Some DATA_LESS) (Some (default (-1) speed)).

(** [cmdCameraFocusStop], [cmdCameraFocusFar], [cmdCameraFocusNear]. *)
Definition cmdCameraFocusStop (device : Z) : ViscaCommand :=
  cmdCameraFocus device (Some DATA_RESET) None.

Definition cmdCameraFocusFar (device : Z) (speed : option Z) : ViscaCommand :=
  cmdCameraFocus device (Some DATA_MORE) (Some (default (-1) speed)).

Definition cmdCameraFocusNear (device : Z) (speed : option Z) : ViscaCommand :=
  cmdCameraFocus device (Some DATA_LESS) (Some (default (-1) speed)).

(** [cmdCameraGain( device, mode = 'r', resetupdown = 0, directvalue = -1 )]. *)
Definition cmdCameraGain (device : Z) (mode : option string)
    (resetupdown directvalue : option Z) : ViscaCommand :=
  let mode := default "r"%string mode in
  let resetupdown := default 0 resetupdown in
  let directvalue := default (-1) directvalue in
  let gaintype :=
    if String.eqb mode "r" then CAM_RGAIN
    else if String.eqb mode "b" then CAM_BGAIN
    else CAM_GAIN in
  let subcmd :=
    if directvalue >? 0
    then [gaintype + 0x40] ++ i2v directvalue
    else [gaintype; resetupdown] in
  cmdCamera (Some device) (Some subcmd) None.

Definition cmdCameraGainUp (device : Z) : ViscaCommand :=
  cmdCameraGain device (Some EmptyString) (Some DATA_ONVAL) None.
Definition cmdCameraGainDown (device : Z) : ViscaCommand :=
  cmdCameraGain device (Some EmptyString) (Some DATA_OFFVAL) None.
Definition cmdCameraGainReset (device : Z) : ViscaCommand :=
  cmdCameraGain device (Some EmptyString) (Some DATA_RESET) None.
Definition cmdCameraGainDirect (device value : Z) : ViscaCommand :=
  cmdCameraGain device (Some "r"%string) (Some 0x00) (Some value).
Definition cmdCameraGainRUp (device : Z) : ViscaCommand :=
  cmdCameraGain device (Some "r"%string) (Some DATA_ONVAL) None.
Definition cmdCameraGainRDown (device : Z) : ViscaCommand :=
  cmdCameraGain device (Some "r"%string) (Some DATA_OFFVAL) None.
Definition cmdCameraGainRReset (device : Z) : ViscaCommand :=
  cmdCameraGain device (Some "r"%string) (Some 0x00) None.
Definition cmdCameraGainRDirect (device value : Z) : ViscaCommand :=
  cmdCameraGain device (Some "r"%string) (Some 0x00) (Some value).
Definition cmdCameraGainBUp (device : Z) : ViscaCommand :=
  cmdCameraGain device (Some "b"%string) (Some DATA_ONVAL) None.
Definition cmdCameraGainBDown (device : Z) : ViscaCommand :=
  cmdCameraGain device (Some "b"%string) (Some DATA_OFFVAL) None.
Definition cmdCameraGainBReset (device : Z) : ViscaCommand :=
  cmdCameraGain device (Some "b"%string) (Some 0x00) None.
Definition cmdCameraGainBDirect (device value : Z) : ViscaCommand :=
  cmdCameraGain device (Some "b"%string) (Some 0x00) (Some value).

(** [cmdCameraShutter( device, resetupdown, directvalue = -1 )] and its
    four callers. *)
Definition cmdCameraShutter (device resetupdown : Z) (directvalue : option Z)
  : ViscaCommand :=
  let directvalue := default (-1) directvalue in
  let subcmd := [CAM_SHUTTER; resetupdown] in
  let subcmd :=
    if directvalue >? -1
    then [CAM_SHUTTER_DIRECT] ++ i2v directvalue
    else subcmd in
  cmdCamera (Some device) (Some subcmd) None.

Definition cmdCameraShutterUp (device : Z) : ViscaCommand :=
  cmdCameraShutter device DATA_MORE None.
Definition cmdCameraShutterDown (device : Z) : ViscaCommand :=
  cmdCameraShutter device DATA_LESS None.
Definition cmdCameraShutterReset (device : Z) : ViscaCommand :=
  cmdCameraShutter device DATA_RESET None.
Definition cmdCameraShutterDirect (device : Z) (value : option Z) : ViscaCommand :=
  cmdCameraShutter device DATA_RESET (Some (default 0 value)).

(** [cmdCameraIris( device, resetupdown, directvalue = -1 )] and its four
    callers. *)
Definition cmdCameraIris (device resetupdown : Z) (directvalue : option Z)
  : ViscaCommand :=
  let directvalue := default (-1) directvalue in
  let subcmd := [CAM_IRIS; resetupdown] in
  let subcmd :=
    if directvalue >? -1
    then [CAM_IRIS_DIRECT] ++ i2v directvalue
    else subcmd in
  cmdCamera (Some device) (Some subcmd) None.

Definition cmdCameraIrisUp (device : Z) : ViscaCommand :=
  cmdCameraIris device DATA_MORE None.
Definition cmdCameraIrisDown (device : Z) : ViscaCommand :=
  cmdCameraIris device DATA_LESS None.
Definition cmdCameraIrisReset (device : Z) : ViscaCommand :=
  cmdCameraIris device DATA_RESET None.
Definition cmdCameraIrisDirect (device : Z) (value : option Z) : ViscaCommand :=
  cmdCameraIris device DATA_RESET (Some (default 0 value)).

(** [cmdCameraAperture( device, resetupdown, directvalue = -1 )] and its
    four callers. *)
Definition cmdCameraAperture (device resetupdown : Z) (directvalue : option Z)
  : ViscaCommand :=
  let directvalue := default (-1) directvalue in
  let subcmd := [CAM_APERTURE; resetupdown] in
  let subcmd :=
    if directvalue >? -1
    then [CAM_APERTURE_DIRECT] ++ i2v directvalue
    else subcmd in
  cmdCamera (Some device) (Some subcmd) None.

Definition cmdCameraApertureUp (device : Z) : ViscaCommand :=
  cmdCameraAperture device DATA_MORE None.
Definition cmdCameraApertureDown (device : Z) : ViscaCommand :=
  cmdCameraAperture device DATA_LESS None.
Definition cmdCameraApertureReset (device : Z) : ViscaCommand :=
  cmdCameraAperture device DATA_RESET None.
Definition cmdCameraApertureDirect (device : Z) (value : option Z) : ViscaCommand :=
  cmdCameraAperture device DATA_RESET (Some (default 0 value)).

End MoreBuilders.

(** The serial port object of the transport: whether it is open, and the
    arrays handed to its [write], in order. *)
Record SerialPort : Type := {
  isOpen : bool;
  written : list (list Z)
}.

(** The transport, with the lines it has printed on the console. *)
Record SerialTransport : Type := {
  serialport : SerialPort;
  debug : bool;
  console : list string
}.

(** ['Sent: ' + packet]: an array converts to its items joined by commas. *)
Definition sent_line (packet : list Z) : string :=
  ("Sent: " ++ String.concat "," (map number_to_string packet))%string.

(** [SerialTransport.write]: nothing happens on a closed port, not even the
    encoding. *)
Definition write (tr : SerialTransport) (c : ViscaCommand)
  : SerialTransport * ViscaCommand :=
  if negb (isOpen (serialport tr)) then (tr, c)
  else
    let '(c, packet) := toPacket c in
    let port := {| isOpen := isOpen (serialport tr);
                   written := written (serialport tr) ++ [packet] |} in
    ({| serialport := port;
        debug := debug tr;
        console := if debug tr then console tr ++ [sent_line packet]
                   else console tr |}, c).

(** [ViscaCommand.send]. *)
Definition send (c : ViscaCommand) (tr : SerialTransport)
  : SerialTransport * ViscaCommand :=
  write tr c.

(** Sending the same command object [n] times. *)
Fixpoint send_times (n : nat) (c : ViscaCommand) (tr : SerialTransport)
  : SerialTransport * ViscaCommand :=
  match n with
  | O => (tr, c)
  | S n' => let '(tr, c) := send c tr in send_times n' c tr
  end.

(** A transport with an open or closed port that has written nothing. *)
Definition fresh_transport (open : bool) : SerialTransport := {|
  serialport := {| isOpen := open; written := [] |};
  debug := true;
  console := []
|}.

(** * Properties *)

(** ** Bit operators *)

Lemma to_int32_small (z : Z) :
  - 2 ^ 31 <= z < 2 ^ 31 -> JS.to_int32 z = z.
Proof.
  intros Hz. unfold JS.to_int32.
  destruct (Z_lt_le_dec z 0) as [Hneg | Hpos].
  - assert (Hm : z mod 2 ^ 32 = z + 2 ^ 32).
    { symmetry. apply Z.mod_unique with (q := -1); lia. }
    rewrite Hm. cbv zeta.
    destruct (Z.ltb_spec (z + 2 ^ 32) (2 ^ 31)); lia.
  - rewrite Z.mod_small by lia. cbv zeta.
    destruct (Z.ltb_spec z (2 ^ 31)); lia.
Qed.

Lemma to_int32_testbit (z i : Z) :
  0 <= i < 32 -> Z.testbit (JS.to_int32 z) i = Z.testbit z i.
Proof.
  intros Hi. unfold JS.to_int32. cbv zeta.
  destruct (z mod 2 ^ 32 <? 2 ^ 31).
  - apply Z.mod_pow2_bits_low. lia.
  - rewrite <- (Z.mod_pow2_bits_low (z mod 2 ^ 32 - 2 ^ 32) 32 i) by lia.
    replace (z mod 2 ^ 32 - 2 ^ 32) with (z mod 2 ^ 32 + (-1) * 2 ^ 32) by lia.
    rewrite Z.mod_add by lia.
    rewrite Z.mod_mod by lia.
    apply Z.mod_pow2_bits_low. lia.
Qed.

(** Bit 3 of an addressed header is clear, whatever the source and the
    recipient. *)
Lemma addressed_header_bit3 (s r : Z) :
  Z.testbit (JS.bor (JS.bor 0x80 (JS.shl s 4)) (JS.band r 0x111)) 3 = false.
Proof.
  unfold JS.bor, JS.band, JS.shl.
  rewrite Z.lor_spec, !to_int32_testbit by lia.
  rewrite Z.lor_spec, Z.land_spec, !to_int32_testbit by lia.
  change (4 mod 32) with 4.
  rewrite Z.shiftl_spec_low by lia.
  change (Z.testbit 128 3) with false.
  change (Z.testbit 273 3) with false.
  now rewrite Bool.andb_false_r.
Qed.

Lemma addressed_header_not_broadcast (s r : Z) :
  JS.bor (JS.bor 0x80 (JS.shl s 4)) (JS.band r 0x111) <> 0x88.
Proof.
  intros Heq.
  pose proof (addressed_header_bit3 s r) as Hbit.
  rewrite Heq in Hbit. discriminate Hbit.
Qed.

(** ** The encoder and the constructor, field by field *)

Lemma header_fst (c : ViscaCommand) :
  fst (_header c) = if recipient c >? -1 then set_broadcast false c else c.
Proof.
  unfold _header.
  destruct (recipient c >? -1); [reflexivity |].
  destruct (negb (broadcast c)); reflexivity.
Qed.

Lemma header_snd (c : ViscaCommand) :
  snd (_header c) =
  if (recipient c >? -1) || negb (broadcast c)
  then JS.bor (JS.bor 0x80 (JS.shl (source c) 4)) (JS.band (recipient c) 0x111)
  else 0x88.
Proof.
  unfold _header.
  destruct (recipient c >? -1); [reflexivity |].
  destruct (negb (broadcast c)); reflexivity.
Qed.

Lemma toPacket_fst (c : ViscaCommand) : fst (toPacket c) = fst (_header c).
Proof.
  unfold toPacket. destruct (_header c) as [c' h]. cbn [fst].
  destruct (dataType c' >? 0); reflexivity.
Qed.

Lemma toPacket_snd (c : ViscaCommand) :
  snd (toPacket c) =
  if dataType c >? 0
  then [snd (_header c); JS.bor (msgType c) (socket c); dataType c] ++ data c ++ [0xff]
  else [snd (_header c); JS.bor (msgType c) (socket c)] ++ data c ++ [0xff].
Proof.
  unfold toPacket.
  pose proof (header_fst c) as Hfst.
  destruct (_header c) as [c' h]. cbn [fst snd] in *. subst c'.
  destruct (recipient c >? -1); cbn [dataType msgType socket data set_broadcast];
    destruct (dataType c >? 0); reflexivity.
Qed.

(** Encoding a second time gives the same object and the same bytes. *)
Lemma header_idempotent (c : ViscaCommand) :
  _header (fst (_header c)) = _header c.
Proof.
  unfold _header.
  destruct (recipient c >? -1) eqn:Hr.
  - cbn [fst negb recipient broadcast source set_broadcast]. rewrite Hr.
    reflexivity.
  - destruct (broadcast c) eqn:Hb; cbn [fst negb]; rewrite Hr, Hb; reflexivity.
Qed.

Lemma toPacket_idempotent (c : ViscaCommand) :
  toPacket (fst (toPacket c)) = toPacket c.
Proof.
  rewrite toPacket_fst. unfold toPacket.
  rewrite header_idempotent. reflexivity.
Qed.

Section Constructor.

Context `{C : Constants}.
Variable p : ViscaCommandParams.

Lemma new_unfold :
  new_ViscaCommand p =
  set_packetHexString (_hexify (snd (toPacket (assigned p))))
                      (fst (_header (assigned p))).
Proof.
  unfold new_ViscaCommand.
  rewrite <- toPacket_fst. destruct (toPacket (assigned p)). reflexivity.
Qed.

Ltac new_field :=
  rewrite new_unfold, header_fst; unfold assigned; cbn;
  destruct (default (-1) (p_recipient p) >? -1); reflexivity.

Lemma new_source : source (new_ViscaCommand p) = default 0 (p_source p).
Proof. new_field. Qed.

Lemma new_recipient : recipient (new_ViscaCommand p) = default (-1) (p_recipient p).
Proof. new_field. Qed.

Lemma new_broadcast :
  broadcast (new_ViscaCommand p) =
  if default (-1) (p_recipient p) >? -1 then false
  else default true (p_broadcast p).
Proof. new_field. Qed.

Lemma new_msgType :
  msgType (new_ViscaCommand p) = default MSGTYPE_COMMAND (p_msgType p).
Proof. new_field. Qed.

Lemma new_socket : socket (new_ViscaCommand p) = default 0 (p_socket p).
Proof. new_field. Qed.

Lemma new_dataType : dataType (new_ViscaCommand p) = default 0 (p_dataType p).
Proof. new_field. Qed.

Lemma new_data : data (new_ViscaCommand p) = default [] (p_data p).
Proof. new_field. Qed.

Lemma new_status : status (new_ViscaCommand p) = 0.
Proof. new_field. Qed.

Lemma new_dataParser :
  dataParser (new_ViscaCommand p) = Some (default NoParser_parse (p_dataParser p)).
Proof. new_field. Qed.

Lemma new_onAck : onAck (new_ViscaCommand p) = p_onAck p.
Proof. new_field. Qed.

Lemma new_onComplete : onComplete (new_ViscaCommand p) = p_onComplete p.
Proof. new_field. Qed.

Lemma new_onError : onError (new_ViscaCommand p) = p_onError p.
Proof. new_field. Qed.

(** The constructor has already encoded once: encoding again changes
    nothing in the object. *)
Lemma new_toPacket_fst : fst (toPacket (new_ViscaCommand p)) = new_ViscaCommand p.
Proof.
  rewrite toPacket_fst, header_fst, new_recipient, new_unfold, header_fst.
  unfold assigned; cbn.
  destruct (default (-1) (p_recipient p) >? -1) eqn:Hr; cbn; reflexivity.
Qed.

End Constructor.

(** ** Header *)

(** C7: on every command whose recipient is a real device id (greater than
    -1), whatever its broadcast flag holds, [toPacket] clears the flag,
    changes nothing else, and returns the packet of the addressed branch: the
    header 0x80 | (source << 4) | (recipient & 0x111) as the code computes
    it, then the message byte, the data type when positive, the data and
    0xff.  That header has bit 3 clear and is never 0x88.  A command
    constructed with such a recipient has its flag cleared already, whatever
    flag it was given, and encodes with that header. *)
Theorem recipient_overrides_broadcast `{C : Constants}
    (c : ViscaCommand) (p : ViscaCommandParams) (r : Z) :
  recipient c > -1 ->
  p_recipient p = Some r -> r > -1 ->
  fst (toPacket c) = set_broadcast false c /\
  snd (toPacket c) =
    (if dataType c >? 0
     then [JS.bor (JS.bor 0x80 (JS.shl (source c) 4)) (JS.band (recipient c) 0x111);
           JS.bor (msgType c) (socket c); dataType c] ++ data c ++ [0xff]
     else [JS.bor (JS.bor 0x80 (JS.shl (source c) 4)) (JS.band (recipient c) 0x111);
           JS.bor (msgType c) (socket c)] ++ data c ++ [0xff]) /\
  Z.testbit (JS.bor (JS.bor 0x80 (JS.shl (source c) 4))
                    (JS.band (recipient c) 0x111)) 3 = false /\
  hd 0 (snd (toPacket c)) <> 0x88 /\
  broadcast (new_ViscaCommand p) = false /\
  recipient (new_ViscaCommand p) = r /\
  hd 0 (snd (toPacket (new_ViscaCommand p))) =
    JS.bor (JS.bor 0x80 (JS.shl (default 0 (p_source p)) 4)) (JS.band r 0x111).
Proof.
  intros Hc Hp Hr.
  assert (Hany : forall c' : ViscaCommand, recipient c' > -1 ->
            snd (toPacket c') =
            (if dataType c' >? 0
             then [JS.bor (JS.bor 0x80 (JS.shl (source c') 4))
                          (JS.band (recipient c') 0x111);
                   JS.bor (msgType c') (socket c'); dataType c']
                    ++ data c' ++ [0xff]
             else [JS.bor (JS.bor 0x80 (JS.shl (source c') 4))
                          (JS.band (recipient c') 0x111);
                   JS.bor (msgType c') (socket c')] ++ data c' ++ [0xff])).
  { intros c' Hc'. rewrite toPacket_snd, header_snd.
    replace (recipient c' >? -1) with true by (symmetry; apply Z.gtb_lt; lia).
    reflexivity. }
  assert (Hnew : recipient (new_ViscaCommand p) = r).
  { rewrite new_recipient, Hp. reflexivity. }
  split; [| split; [| split; [| split; [| split; [| split]]]]].
  - rewrite toPacket_fst, header_fst.
    replace (recipient c >? -1) with true by (symmetry; apply Z.gtb_lt; lia).
    reflexivity.
  - apply Hany. exact Hc.
  - apply addressed_header_bit3.
  - rewrite (Hany c Hc).
    destruct (dataType c >? 0); apply addressed_header_not_broadcast.
  - rewrite new_broadcast, Hp. cbn [default].
    replace (r >? -1) with true by (symmetry; apply Z.gtb_lt; lia).
    reflexivity.
  - exact Hnew.
  - rewrite (Hany (new_ViscaCommand p)) by (rewrite Hnew; exact Hr).
    rewrite Hnew, new_source.
    destruct (dataType (new_ViscaCommand p) >? 0); reflexivity.
Qed.

Lemma recipient_overrides_broadcast_witness :
  let c := set_broadcast true
             (new_ViscaCommand (C := visca_constants) (params_wire 2 5 0x01 0 0x04 [0x07])) in
  let n := new_ViscaCommand (C := visca_constants) (params_recipient_broadcast 3) in
  fst (toPacket c) = set_broadcast false c /\
  snd (toPacket c) = [0xA1; 0x01; 0x04; 0x07; 0xff] /\
  hd 0 (snd (toPacket c)) <> 0x88 /\
  broadcast n = false /\ recipient n = 3 /\
  hd 0 (snd (toPacket n)) = 0x81.
Proof.
  intros c n.
  destruct (recipient_overrides_broadcast (C := visca_constants)
              c (params_recipient_broadcast 3) 3
              ltac:(cbn; lia) eq_refl ltac:(lia))
    as (Hfst & Hsnd & _ & Hne & Hb & Hr & Hhd).
  exact (conj Hfst (conj Hsnd (conj Hne (conj Hb (conj Hr Hhd))))).
Defined.

(** C2: the header of a command addressed to device 2 is 0x80, where the
    documented layout 0x80 | (source << 4) | (recipient & 0x07) gives 0x82:
    the recipient is masked with 0x111, which keeps only bit 0 of a device
    id, so the headers for devices 0 to 7 alternate between 0x80 and 0x81.
    The broadcast header is 0x88. *)
Theorem header_recipient_mask_slip :
  hd 0 (snd (toPacket (new_ViscaCommand (C := visca_constants) (params_recipient 2))))
    = 0x80 /\
  Z.lor (Z.lor 0x80 (Z.shiftl 0 4)) (Z.land 2 0x07) = 0x82 /\
  map (fun r => hd 0 (snd (toPacket
         (new_ViscaCommand (C := visca_constants) (params_recipient r)))))
      [0; 1; 2; 3; 4; 5; 6; 7]
    = [0x80; 0x81; 0x80; 0x81; 0x80; 0x81; 0x80; 0x81] /\
  hd 0 (snd (toPacket (new_ViscaCommand (C := visca_constants) no_params))) = 0x88.
Proof. repeat split. Qed.

(** ** Builders *)

(** C10: the focus drive builder and the zoom drive builder give the same
    command for the same arguments, hence the same packet: both put the
    payload [[CAM_ZOOM; value]] under the camera category, the value being
    the direction, or the direction shifted by eight bits plus the low three
    bits of the speed when a speed is given and the direction is not stop. *)
Theorem focus_drive_uses_zoom_opcode `{C : Constants}
    (device : Z) (direction speed : option Z) :
  let dir := default DATA_RESET direction in
  let sp := default (-1) speed in
  let value :=
    if (sp >? -1) && negb (dir =? DATA_RESET)
    then JS.shl dir 8 + JS.band sp 7 else dir in
  snd (toPacket (cmdCameraFocus device direction speed)) =
    snd (toPacket (cmdCameraZoom device direction speed)) /\
  data (cmdCameraFocus device direction speed) = [CAM_ZOOM; value] /\
  data (cmdCameraZoom device direction speed) = [CAM_ZOOM; value] /\
  dataType (cmdCameraFocus device direction speed) = DATATYPE_CAMERA /\
  dataType (cmdCameraZoom device direction speed) = DATATYPE_CAMERA.
Proof.
  intros dir sp value.
  assert (Heq : cmdCameraFocus device direction speed =
                cmdCameraZoom device direction speed) by reflexivity.
  rewrite Heq.
  assert (Hdata : data (cmdCameraZoom device direction speed) = [CAM_ZOOM; value]).
  { unfold cmdCameraZoom, cmdCamera, cmd. rewrite new_data. reflexivity. }
  assert (Htype : dataType (cmdCameraZoom device direction speed) = DATATYPE_CAMERA).
  { unfold cmdCameraZoom, cmdCamera, cmd. rewrite new_dataType. reflexivity. }
  repeat split; assumption.
Qed.

(** ** The decoder on a frame *)

(** The body of a frame is what lies between its second and its last
    byte. *)
Lemma slice_frame (h q : Z) (body : list Z) (t : Z) :
  JS.slice (h :: q :: body ++ [t]) 2
           (Z.of_nat (List.length (h :: q :: body ++ [t])) - 1) = body.
Proof.
  unfold JS.slice, JS.clamp_index. cbn [List.length].
  rewrite length_app. cbn [List.length].
  set (n := List.length body).
  replace (Z.of_nat (S (S (n + 1))) - 1) with (Z.of_nat n + 2) by lia.
  replace (Z.of_nat (S (S (n + 1)))) with (Z.of_nat n + 3) by lia.
  destruct (Z.ltb_spec (Z.of_nat n + 2) 0) as [Hlt | _]; [lia |].
  change (2 <? 0) with false. cbv iota.
  rewrite (Z.min_l 2) by lia.
  rewrite Z.min_l by lia.
  replace (Z.max (Z.of_nat n + 2 - 2) 0) with (Z.of_nat n) by lia.
  rewrite Nat2Z.id. change (Z.to_nat 2) with 2%nat. cbn [skipn].
  subst n. rewrite firstn_app, Nat.sub_diag, firstn_all.
  cbn [firstn]. apply app_nil_r.
Qed.

(** A frame shorter than three bytes has an empty body. *)
Lemma slice_short (packet : list Z) :
  (List.length packet < 3)%nat ->
  JS.slice packet 2 (Z.of_nat (List.length packet) - 1) = [].
Proof.
  intros Hlen.
  destruct packet as [| h [| q [| x rest]]]; [reflexivity .. |].
  cbn [List.length] in Hlen. lia.
Qed.

(** Case analysis on the two destructuring branches of [_parsePacket]. *)
Ltac split_parse :=
  repeat match goal with
  | |- context [let '(_, _) := (if ?b then _ else _) in _] => destruct b
  | |- context [let '(_, _) := JS.splice_first ?l in _] =>
      destruct (JS.splice_first l)
  end; reflexivity.

Section Decoder.

Context `{C : Constants}.
Variables (v : ViscaCommand) (h q : Z) (rest : list Z).

Lemma parse_source :
  source (_parsePacket v (h :: q :: rest)) = JS.sar (JS.band h HEADERMASK_SOURCE) 4.
Proof.
  unfold _parsePacket.
  split_parse.
Qed.

Lemma parse_recipient :
  recipient (_parsePacket v (h :: q :: rest)) = JS.band h HEADERMASK_RECIPIENT.
Proof.
  unfold _parsePacket.
  split_parse.
Qed.

Lemma parse_broadcast :
  broadcast (_parsePacket v (h :: q :: rest)) =
  (JS.sar (JS.band h HEADERMASK_BROADCAST) 3 =? 1).
Proof.
  unfold _parsePacket.
  split_parse.
Qed.

Lemma parse_message :
  (msgType (_parsePacket v (h :: q :: rest)),
   socket (_parsePacket v (h :: q :: rest))) =
  if is_request (Some q)
  then (q, 0)
  else (JS.band q 0xF0, JS.band q 0x0F).
Proof.
  unfold _parsePacket. cbn [JS.index nth_error JS.int_of].
  split_parse.
Qed.

Lemma parse_msgType :
  msgType (_parsePacket v (h :: q :: rest)) =
  fst (if is_request (Some q)
       then (q, 0)
       else (JS.band q 0xF0, JS.band q 0x0F)).
Proof. rewrite <- parse_message. reflexivity. Qed.

Lemma parse_socket :
  socket (_parsePacket v (h :: q :: rest)) =
  snd (if is_request (Some q)
       then (q, 0)
       else (JS.band q 0xF0, JS.band q 0x0F)).
Proof. rewrite <- parse_message. reflexivity. Qed.

(** The category byte is split off a body of two bytes or more. *)
Lemma parse_body (body : list Z) (t : Z) :
  (dataType (_parsePacket v (h :: q :: body ++ [t])),
   data (_parsePacket v (h :: q :: body ++ [t]))) =
  if Z.of_nat (List.length body) <? 2 then (0, body) else (hd 0 body, tl body).
Proof.
  unfold _parsePacket. rewrite slice_frame.
  destruct (Z.of_nat (List.length body) <? 2) eqn:Hlen.
  - split_parse.
  - destruct body as [| x body']; [discriminate Hlen |].
    cbn [JS.splice_first JS.index nth_error JS.int_of hd tl].
    split_parse.
Qed.

Lemma parse_dataType (body : list Z) (t : Z) :
  dataType (_parsePacket v (h :: q :: body ++ [t])) =
  fst (if Z.of_nat (List.length body) <? 2 then (0, body) else (hd 0 body, tl body)).
Proof. rewrite <- (parse_body body t). reflexivity. Qed.

Lemma parse_data (body : list Z) (t : Z) :
  data (_parsePacket v (h :: q :: body ++ [t])) =
  snd (if Z.of_nat (List.length body) <? 2 then (0, body) else (hd 0 body, tl body)).
Proof. rewrite <- (parse_body body t). reflexivity. Qed.

End Decoder.

(** ** Category byte *)

(** C5, as amended: decoding a frame whose body is exactly one byte leaves
    that byte in the data and the data type at 0; decoding a frame whose body
    is exactly two bytes removes the first and stores it as the data type (so
    the data type is non-zero exactly when that byte is); encoding emits the
    data type byte exactly when it is greater than 0. *)
Theorem category_byte_split `{C : Constants} (h q b b1 b2 t : Z) :
  (exists c, fromPacket [h; q; b; t] = JS.Return c /\
             dataType c = 0 /\ data c = [b]) /\
  (exists c, fromPacket [h; q; b1; b2; t] = JS.Return c /\
             dataType c = b1 /\ data c = [b2]) /\
  (forall c, snd (toPacket c) =
     if dataType c >? 0
     then [snd (_header c); JS.bor (msgType c) (socket c); dataType c]
            ++ data c ++ [0xff]
     else [snd (_header c); JS.bor (msgType c) (socket c)] ++ data c ++ [0xff]).
Proof.
  split; [| split].
  - eexists. split; [reflexivity |].
    split.
    + apply (parse_dataType _ h q [b] t).
    + apply (parse_data _ h q [b] t).
  - eexists. split; [reflexivity |].
    split.
    + apply (parse_dataType _ h q [b1; b2] t).
    + apply (parse_data _ h q [b1; b2] t).
  - apply toPacket_snd.
Qed.

(** C5, as stated, fails on a two-byte body that starts with 0 (the
    interface category): the reply frame 90 50 00 02 ff decodes to data type
    0, the sixth field, with data [[2]]. *)
Lemma two_byte_body_zero_category :
  returned_fields (fromPacket (C := visca_constants) [0x90; 0x50; 0x00; 0x02; 0xff])
  = Some (1, 0, false, 0x50, 0, 0, [0x02]).
Proof. reflexivity. Qed.

(** ** Malformed frames *)

(** C8, as amended: decoding never fails.  Every byte sequence decodes to a
    command; the bytes missing from a frame shorter than three bytes read as
    0 and its data is empty; the last byte of a longer frame is dropped
    without being compared with the terminator. *)
Theorem decoding_never_fails `{C : Constants} :
  (forall packet, exists c, fromPacket packet = JS.Return c) /\
  returned_fields (fromPacket []) = Some (0, 0, false, 0, 0, 0, []) /\
  (forall h q, exists c1 c2,
     fromPacket [h] = JS.Return c1 /\ fromPacket [h; q] = JS.Return c2 /\
     msgType c1 = 0 /\ socket c1 = 0 /\ dataType c1 = 0 /\ data c1 = [] /\
     dataType c2 = 0 /\ data c2 = []) /\
  (forall h q body t t',
     returned_fields (fromPacket (h :: q :: body ++ [t])) =
     returned_fields (fromPacket (h :: q :: body ++ [t']))).
Proof.
  split; [| split; [| split]].
  - intros packet. eexists. reflexivity.
  - reflexivity.
  - intros h q. do 2 eexists. do 2 (split; [reflexivity |]).
    unfold _parsePacket. cbn.
    repeat split; split_parse.
  - intros h q body t t'.
    unfold fromPacket, returned_fields, wire_fields.
    rewrite !parse_source, !parse_recipient, !parse_broadcast,
      !parse_msgType, !parse_socket, !parse_dataType, !parse_data.
    reflexivity.
Qed.

(** C8, as stated, fails: the two-byte frame 90 41 and the frame
    90 50 04 02 03, which has no terminator, are malformed, and both decode
    to a command; the second loses its last byte as if it were the
    terminator. *)
Lemma malformed_frames_decode :
  malformed [0x90; 0x41] /\
  returned_fields (fromPacket (C := visca_constants) [0x90; 0x41])
    = Some (1, 0, false, 0x40, 1, 0, []) /\
  malformed [0x90; 0x50; 0x04; 0x02; 0x03] /\
  returned_fields (fromPacket (C := visca_constants) [0x90; 0x50; 0x04; 0x02; 0x03])
    = Some (1, 0, false, 0x50, 0, 0x04, [0x02]).
Proof.
  repeat split.
  - left. cbn. lia.
  - right. cbn. lia.
Qed.

(** ** The reply handlers *)

Section Handlers.

Context `{C : Constants}.

Lemma handleComplete_fst (c : ViscaCommand) (d : option (list Z)) (t : trace) :
  fst (handleComplete c d t) = set_status MSGTYPE_COMPLETE c.
Proof.
  unfold handleComplete.
  destruct (dataParser (set_status MSGTYPE_COMPLETE c)) as [parse |], d as [raw |];
    match goal with
    | |- context [if ?b then _ else _] => destruct b
    end; reflexivity.
Qed.

(** The trace of [handleComplete]: the parser call, when the parser and
    the data are both defined, then the callback call, when there is a
    callback. *)
Lemma handleComplete_snd (c : ViscaCommand) (d : option (list Z)) (t : trace) :
  snd (handleComplete c d t) =
  let v := match dataParser c, d with
           | Some parse, Some raw => parse raw
           | _, _ => value_of_data d
           end in
  let t' := match dataParser c, d with
            | Some _, Some raw => t ++ [Parse raw]
            | _, _ => t
            end in
  invoke (onComplete c)
         (if JS.is_nullish v || JS.length_is_zero v then [] else [v]) t'.
Proof.
  unfold handleComplete. cbn [dataParser onComplete set_status].
  destruct (dataParser c) as [parse |], d as [raw |]; cbv zeta;
    match goal with
    | |- context [if ?b then _ else _] => destruct b
    end; reflexivity.
Qed.

Lemma invocations_app (t1 t2 : trace) :
  invocations (t1 ++ t2) = invocations t1 ++ invocations t2.
Proof. apply flat_map_app. Qed.

Lemma parser_calls_app (t1 t2 : trace) :
  parser_calls (t1 ++ t2) = parser_calls t1 ++ parser_calls t2.
Proof. apply flat_map_app. Qed.

Lemma parser_calls_invoke (f : option callback) (args : list JS.value) (t : trace) :
  parser_calls (invoke f args t) = parser_calls t.
Proof.
  destruct f as [g |]; [| reflexivity].
  cbn [invoke]. rewrite parser_calls_app. cbn. apply app_nil_r.
Qed.

Lemma invocations_invoke (f : callback) (args : list JS.value) (t : trace) :
  invocations (invoke (Some f) args t) = invocations t ++ [(f, args)].
Proof. cbn [invoke]. rewrite invocations_app. reflexivity. Qed.

(** A step keeps the callbacks and the parser of the command. *)
Lemma step_keeps_functions (k : call) (c : ViscaCommand) (t : trace) :
  let c' := fst (step k (c, t)) in
  dataParser c' = dataParser c /\ onAck c' = onAck c /\
  onComplete c' = onComplete c /\ onError c' = onError c.
Proof.
  destruct k as [| | err | d]; cbn [step].
  - cbn [fst]. rewrite toPacket_fst, header_fst.
    destruct (recipient c >? -1); repeat split.
  - repeat split.
  - repeat split.
  - rewrite handleComplete_fst. repeat split.
Qed.

(** What one step adds to the callback calls and to the parser calls. *)
Lemma step_invocations (k : call) (c : ViscaCommand) (t : trace)
    (fa fc fe : callback) :
  onAck c = Some fa -> onComplete c = Some fc -> onError c = Some fe ->
  List.length (invocations (snd (step k (c, t)))) =
  (List.length (invocations t) + handler_calls [k])%nat.
Proof.
  intros Ha Hc He.
  destruct k as [| | err | d]; cbn [step handler_calls filter List.length].
  - cbn [snd]. lia.
  - unfold handleAck. cbn [snd onAck set_status]. rewrite Ha.
    rewrite invocations_invoke, length_app. reflexivity.
  - unfold handleError. cbn [snd onError set_status]. rewrite He.
    rewrite invocations_invoke, length_app. reflexivity.
  - rewrite handleComplete_snd, Hc. cbv zeta.
    rewrite invocations_invoke, length_app. cbn [List.length].
    destruct (dataParser c), d; try reflexivity.
    rewrite invocations_app, length_app. cbn. lia.
Qed.

Lemma step_parser_calls (k : call) (c : ViscaCommand) (t : trace) :
  parser_calls (snd (step k (c, t))) =
  parser_calls t ++
  match dataParser c with
  | Some _ => completed_data [k]
  | None => []
  end.
Proof.
  destruct k as [| | err | d]; cbn [step completed_data flat_map].
  - cbn [snd]. destruct (dataParser c); symmetry; apply app_nil_r.
  - unfold handleAck. cbn [snd]. rewrite parser_calls_invoke.
    destruct (dataParser c); symmetry; apply app_nil_r.
  - unfold handleError. cbn [snd]. rewrite parser_calls_invoke.
    destruct (dataParser c); symmetry; apply app_nil_r.
  - rewrite handleComplete_snd. cbv zeta. rewrite parser_calls_invoke.
    destruct (dataParser c), d; cbn [app];
      rewrite ?parser_calls_app, ?app_nil_r; reflexivity.
Qed.

Lemma handler_calls_cons (k : call) (ks : list call) :
  handler_calls (k :: ks) = (handler_calls [k] + handler_calls ks)%nat.
Proof. unfold handler_calls. cbn [filter]. destruct k; reflexivity. Qed.

Lemma completed_data_cons (k : call) (ks : list call) :
  completed_data (k :: ks) = completed_data [k] ++ completed_data ks.
Proof. unfold completed_data. cbn [flat_map]. rewrite app_nil_r. reflexivity. Qed.

(** Neither changing the status nor encoding changes the encoding. *)
Lemma toPacket_set_status (s : Z) (c : ViscaCommand) :
  snd (toPacket (set_status s c)) = snd (toPacket c).
Proof. rewrite !toPacket_snd, !header_snd. reflexivity. Qed.

Lemma step_keeps_packet (k : call) (c : ViscaCommand) (t : trace) :
  snd (toPacket (fst (step k (c, t)))) = snd (toPacket c).
Proof.
  destruct k as [| | err | d]; cbn [step].
  - cbn [fst]. rewrite toPacket_idempotent. reflexivity.
  - apply toPacket_set_status.
  - apply toPacket_set_status.
  - rewrite handleComplete_fst. apply toPacket_set_status.
Qed.

End Handlers.

(** What one step adds to the callback calls, for any command: the call of
    the callback of the handler, when the command has it. *)
Lemma step_invocations_any `{C : Constants} (k : call) (c : ViscaCommand) (t : trace) :
  invocations (snd (step k (c, t))) =
  invocations t ++
  match k with
  | CallToPacket => []
  | CallAck =>
      match onAck c with Some f => [(f, [])] | None => [] end
  | CallError err =>
      match onError c with Some f => [(f, [JS.Str err])] | None => [] end
  | CallComplete d =>
      match onComplete c with
      | Some f =>
          [(f, let v := match dataParser c, d with
                        | Some parse, Some raw => parse raw
                        | _, _ => value_of_data d
                        end in
               if JS.is_nullish v || JS.length_is_zero v then [] else [v])]
      | None => []
      end
  end.
Proof.
  destruct k as [| | err | d]; cbn [step].
  - cbn [snd]. symmetry. apply app_nil_r.
  - unfold handleAck. cbn [snd onAck set_status].
    destruct (onAck c); cbn [invoke];
      unfold invocations; rewrite ?flat_map_app; cbn [flat_map app];
      rewrite ?app_nil_r; reflexivity.
  - unfold handleError. cbn [snd onError set_status].
    destruct (onError c); cbn [invoke];
      unfold invocations; rewrite ?flat_map_app; cbn [flat_map app];
      rewrite ?app_nil_r; reflexivity.
  - rewrite handleComplete_snd. cbv zeta.
    destruct (onComplete c) as [f |], (dataParser c) as [parse |], d as [raw |];
      cbn [invoke]; unfold invocations; rewrite ?flat_map_app;
      cbn [flat_map app]; rewrite ?app_nil_r; reflexivity.
Qed.

(** C3, as amended: no transition looks at the status.  On any command, in
    any state, terminal ones included, and whichever callbacks it has,
    [handleAck], [handleError] and [handleComplete] set the status and call
    their callback, when the command has it, once per call.  So a call
    sequence produces one callback call per handler call whose callback is
    present, and as many callback calls as handler calls when the three
    callbacks are present. *)
Theorem transitions_ignore_status `{C : Constants} (c : ViscaCommand) (t : trace) :
  let present := fun o : option callback =>
    match o with Some _ => true | None => false end in
  handleAck c t =
    (set_status MSGTYPE_ACK c,
     t ++ match onAck c with Some f => [Invoke f []] | None => [] end) /\
  (forall err, handleError c err t =
     (set_status MSGTYPE_ERROR c,
      t ++ match onError c with Some f => [Invoke f [JS.Str err]] | None => [] end)) /\
  (forall d, fst (handleComplete c d t) = set_status MSGTYPE_COMPLETE c /\
     invocations (snd (handleComplete c d t)) =
     invocations t ++
     match onComplete c with
     | Some f =>
         [(f, let v := match dataParser c, d with
                       | Some parse, Some raw => parse raw
                       | _, _ => value_of_data d
                       end in
              if JS.is_nullish v || JS.length_is_zero v then [] else [v])]
     | None => []
     end) /\
  (forall ks, List.length (invocations (snd (run ks (c, t)))) =
     (List.length (invocations t) +
      List.length (filter (fun k => match k with
                                    | CallToPacket => false
                                    | CallAck => present (onAck c)
                                    | CallError _ => present (onError c)
                                    | CallComplete _ => present (onComplete c)
                                    end) ks))%nat) /\
  (forall ks, onAck c <> None -> onComplete c <> None -> onError c <> None ->
     List.length (invocations (snd (run ks (c, t)))) =
     (List.length (invocations t) + handler_calls ks)%nat).
Proof.
  intros present.
  assert (Hcount : forall ks (c : ViscaCommand) (t : trace),
    List.length (invocations (snd (run ks (c, t)))) =
    (List.length (invocations t) +
     List.length (filter (fun k => match k with
                                   | CallToPacket => false
                                   | CallAck => present (onAck c)
                                   | CallError _ => present (onError c)
                                   | CallComplete _ => present (onComplete c)
                                   end) ks))%nat).
  { clear c t. induction ks as [| k ks IH]; intros c t.
    - cbn [run snd filter List.length]. lia.
    - cbn [run]. destruct (step k (c, t)) as [c' t'] eqn:Hstep.
      pose proof (step_keeps_functions k c t) as Hkeep.
      pose proof (step_invocations_any k c t) as Hinv.
      rewrite Hstep in Hkeep, Hinv. cbn [fst snd] in Hkeep, Hinv.
      destruct Hkeep as (_ & Ha' & Hc' & He').
      rewrite (IH c' t'), Hinv, Ha', Hc', He', length_app.
      cbn [filter].
      destruct k as [| | err | d];
        [ | destruct (onAck c) | destruct (onError c) | destruct (onComplete c)];
        cbn [present List.length]; lia. }
  split; [| split; [| split; [| split]]].
  - unfold handleAck. cbn [onAck set_status].
    destruct (onAck c); cbn [invoke]; rewrite ?app_nil_r; reflexivity.
  - intros err. unfold handleError. cbn [onError set_status].
    destruct (onError c); cbn [invoke]; rewrite ?app_nil_r; reflexivity.
  - intros d. split; [apply handleComplete_fst |].
    apply (step_invocations_any (CallComplete d) c t).
  - intros ks. apply Hcount.
  - intros ks Ha Hc He. rewrite Hcount. f_equal. unfold handler_calls.
    f_equal. apply filter_ext. intros k.
    destruct (onAck c); [| congruence].
    destruct (onComplete c); [| congruence].
    destruct (onError c); [| congruence].
    destruct k; reflexivity.
Qed.

Lemma transitions_ignore_status_witness :
  let c := set_status 0x50 (new_ViscaCommand (C := visca_constants) (params_callbacks None)) in
  handleAck (C := visca_constants) c [] =
    (set_status 0x40 c, [Invoke "onAck" []]) /\
  List.length (invocations (snd (run (C := visca_constants)
     [CallComplete None; CallComplete None] (c, [])))) = 2%nat.
Proof.
  intros c.
  destruct (transitions_ignore_status (C := visca_constants) c [])
    as (Hack & _ & _ & _ & Hrun).
  split.
  - exact Hack.
  - apply (Hrun [CallComplete None; CallComplete None]); discriminate.
Defined.

(** C3, as stated, fails: a command completed once (status 0x50) that is
    completed again and then acknowledged has its completion callback called
    a second time and its acknowledge callback called, and ends with status
    0x40. *)
Lemma terminal_command_callbacks_fire_again :
  let c := new_ViscaCommand (C := visca_constants) (params_callbacks None) in
  let s1 := run (C := visca_constants) [CallComplete None] (c, []) in
  let s2 := run (C := visca_constants) [CallComplete None; CallAck] s1 in
  status (fst s1) = 0x50 /\
  invocations (snd s1) = [("onComplete", [])] /\
  invocations (snd s2) =
    [("onComplete", []); ("onComplete", []); ("onAck", [])] /\
  status (fst s2) = 0x40.
Proof. repeat split. Qed.

(** C4, as amended: on any command, whichever callbacks it has,
    [handleComplete] sets the status to Completed and changes nothing else.
    With defined data and a parser the parser runs on the data first, and
    the completion callback, when present, gets its result, or no argument
    when the result is nullish or empty; without a parser it gets the data,
    or no argument when the data is empty; with undefined data it gets no
    argument.  So acknowledge then complete([]) calls onAck once, when
    present, and onComplete with no argument when the parser gives a nullish
    or empty result for the empty array, as the default parser does; and
    complete([2, 3]) with a configured parser whose result for [2, 3] is
    neither nullish nor empty calls onComplete with that result. *)
Theorem handleComplete_outcome `{C : Constants} (c : ViscaCommand) (t : trace) :
  (forall d, fst (handleComplete c d t) = set_status MSGTYPE_COMPLETE c) /\
  (forall d, status (fst (handleComplete c d t)) = MSGTYPE_COMPLETE) /\
  (forall parse raw, dataParser c = Some parse ->
     snd (handleComplete c (Some raw) t) =
     t ++ [Parse raw] ++
     match onComplete c with
     | Some f =>
         [Invoke f (if JS.is_nullish (parse raw) || JS.length_is_zero (parse raw)
                    then [] else [parse raw])]
     | None => []
     end) /\
  (forall raw, dataParser c = None ->
     snd (handleComplete c (Some raw) t) =
     t ++ match onComplete c with
          | Some f =>
              [Invoke f (if Z.of_nat (List.length raw) =? 0
                         then [] else [JS.Arr raw])]
          | None => []
          end) /\
  snd (handleComplete c None t) =
    t ++ match onComplete c with Some f => [Invoke f []] | None => [] end /\
  (forall parse, dataParser c = Some parse ->
     JS.is_nullish (parse []) || JS.length_is_zero (parse []) = true ->
     snd (run [CallAck; CallComplete (Some [])] (c, t)) =
     t ++ match onAck c with Some f => [Invoke f []] | None => [] end
       ++ [Parse []]
       ++ match onComplete c with Some f => [Invoke f []] | None => [] end) /\
  (dataParser c = Some NoParser_parse ->
     snd (run [CallAck; CallComplete (Some [])] (c, t)) =
     t ++ match onAck c with Some f => [Invoke f []] | None => [] end
       ++ [Parse []]
       ++ match onComplete c with Some f => [Invoke f []] | None => [] end) /\
  (forall parse, dataParser c = Some parse ->
     JS.is_nullish (parse [0x02; 0x03]) || JS.length_is_zero (parse [0x02; 0x03])
       = false ->
     snd (handleComplete c (Some [0x02; 0x03]) t) =
     t ++ [Parse [0x02; 0x03]] ++
     match onComplete c with
     | Some f => [Invoke f [parse [0x02; 0x03]]]
     | None => []
     end).
Proof.
  assert (Hparsed : forall (c : ViscaCommand) (t : trace) parse raw,
     dataParser c = Some parse ->
     snd (handleComplete c (Some raw) t) =
     t ++ [Parse raw] ++
     match onComplete c with
     | Some f =>
         [Invoke f (if JS.is_nullish (parse raw) || JS.length_is_zero (parse raw)
                    then [] else [parse raw])]
     | None => []
     end).
  { intros c0 t0 parse raw Hp. rewrite handleComplete_snd, Hp. cbv zeta.
    destruct (onComplete c0); cbn [invoke]; rewrite <- ?app_assoc, ?app_nil_r;
      reflexivity. }
  assert (Hscene : forall parse, dataParser c = Some parse ->
     JS.is_nullish (parse []) || JS.length_is_zero (parse []) = true ->
     snd (run [CallAck; CallComplete (Some [])] (c, t)) =
     t ++ match onAck c with Some f => [Invoke f []] | None => [] end
       ++ [Parse []]
       ++ match onComplete c with Some f => [Invoke f []] | None => [] end).
  { intros parse Hp Hempty. cbn [run step]. unfold handleAck. cbn [step].
    rewrite (Hparsed (set_status MSGTYPE_ACK c) _ parse [] Hp).
    cbn [onAck onComplete set_status].
    rewrite Hempty.
    destruct (onAck c); cbn [invoke]; rewrite <- ?app_assoc, ?app_nil_r;
      reflexivity. }
  split; [| split; [| split; [| split; [| split; [| split; [| split]]]]]].
  - intros d. apply handleComplete_fst.
  - intros d. rewrite handleComplete_fst. reflexivity.
  - apply Hparsed.
  - intros raw Hp. rewrite handleComplete_snd, Hp. cbv zeta.
    destruct (onComplete c); cbn [invoke value_of_data JS.is_nullish
      JS.length_is_zero orb]; rewrite ?app_nil_r; reflexivity.
  - rewrite handleComplete_snd. cbv zeta.
    destruct (dataParser c), (onComplete c); cbn [invoke]; rewrite ?app_nil_r;
      reflexivity.
  - exact Hscene.
  - intros Hp. apply (Hscene NoParser_parse Hp). reflexivity.
  - intros parse Hp Hne. rewrite (Hparsed _ _ parse _ Hp), Hne. reflexivity.
Qed.

Lemma handleComplete_outcome_witness :
  let c := new_ViscaCommand (C := visca_constants) (params_callbacks None) in
  snd (run (C := visca_constants) [CallAck; CallComplete (Some [])] (c, [])) =
    [Invoke "onAck" []; Parse []; Invoke "onComplete" []] /\
  snd (handleComplete (C := visca_constants) c (Some [0x02; 0x03]) []) =
    [Parse [0x02; 0x03]; Invoke "onComplete" [JS.Arr [0x02; 0x03]]].
Proof.
  intros c.
  destruct (handleComplete_outcome (C := visca_constants) c [])
    as (_ & _ & _ & _ & _ & Hfirst & _ & Hsecond).
  split.
  - apply (Hfirst NoParser_parse); reflexivity.
  - apply (Hsecond NoParser_parse); reflexivity.
Defined.

(** C4, as stated, fails: a Pending command whose configured parser returns
    a number (here the length of the data) and that receives acknowledge
    then complete([]) has its completion callback called with the argument
    0, not without argument. *)
Lemma configured_parser_result_for_empty_data :
  let c := new_ViscaCommand (C := visca_constants)
             (params_callbacks
                (Some (fun raw : list Z => JS.Num (Z.of_nat (List.length raw))))) in
  status c = 0 /\
  snd (run (C := visca_constants) [CallAck; CallComplete (Some [])] (c, [])) =
    [Invoke "onAck" []; Parse []; Invoke "onComplete" [JS.Num 0]].
Proof. repeat split. Qed.

(** C6, as amended: the parser is called only by [handleComplete], once per
    call that hands it defined data, empty arrays included; [handleAck],
    [handleError] and [toPacket] never call it.  Along any call sequence the
    parser calls are the defined data of the completions, in order. *)
Theorem parser_called_on_defined_data `{C : Constants}
    (c : ViscaCommand) (t : trace) :
  parser_calls (snd (handleAck c t)) = parser_calls t /\
  (forall err, parser_calls (snd (handleError c err t)) = parser_calls t) /\
  (forall ks, parser_calls (snd (run ks (c, t))) =
     parser_calls t ++
     match dataParser c with
     | Some _ => completed_data ks
     | None => []
     end).
Proof.
  split; [| split].
  - unfold handleAck. cbn [snd]. apply parser_calls_invoke.
  - intros err. unfold handleError. cbn [snd]. apply parser_calls_invoke.
  - intros ks. revert c t.
    induction ks as [| k ks IH]; intros c t.
    + cbn [run snd completed_data flat_map].
      destruct (dataParser c); symmetry; apply app_nil_r.
    + cbn [run]. rewrite completed_data_cons.
      destruct (step k (c, t)) as [c' t'] eqn:Hstep.
      pose proof (step_keeps_functions k c t) as Hkeep.
      pose proof (step_parser_calls k c t) as Hcalls.
      rewrite Hstep in Hkeep, Hcalls. cbn [fst snd] in Hkeep, Hcalls.
      destruct Hkeep as (Hp & _).
      rewrite IH, Hcalls, Hp.
      destruct (dataParser c); rewrite <- ?app_assoc, ?app_nil_r; reflexivity.
Qed.

(** C6, as stated, fails: completing a command with the empty array calls
    its parser on the empty array. *)
Lemma parser_called_on_empty_data :
  let c := new_ViscaCommand (C := visca_constants) (params_callbacks None) in
  snd (handleComplete (C := visca_constants) c (Some []) []) =
    [Parse []; Invoke "onComplete" []].
Proof. reflexivity. Qed.

(** C9, as amended: every operation leaves the output of [toPacket]
    unchanged.  The three handlers change the status and nothing else, and
    set it whatever it was, so it can go back from Completed to
    Acknowledged.  [toPacket] clears the broadcast flag of a command whose
    recipient is greater than -1 and changes nothing else; on a command
    straight from the constructor it changes nothing. *)
Theorem operations_keep_encoding `{C : Constants} (c : ViscaCommand) (t : trace) :
  (forall ks, snd (toPacket (fst (run ks (c, t)))) = snd (toPacket c)) /\
  fst (handleAck c t) = set_status MSGTYPE_ACK c /\
  (forall err, fst (handleError c err t) = set_status MSGTYPE_ERROR c) /\
  (forall d, fst (handleComplete c d t) = set_status MSGTYPE_COMPLETE c) /\
  fst (toPacket c) = (if recipient c >? -1 then set_broadcast false c else c) /\
  (forall p, fst (toPacket (new_ViscaCommand p)) = new_ViscaCommand p).
Proof.
  split; [| split; [| split; [| split; [| split]]]].
  - intros ks. revert c t.
    induction ks as [| k ks IH]; intros c t; [reflexivity |].
    cbn [run]. destruct (step k (c, t)) as [c' t'] eqn:Hstep.
    rewrite IH. pose proof (step_keeps_packet k c t) as Hk.
    rewrite Hstep in Hk. exact Hk.
  - reflexivity.
  - reflexivity.
  - intros d. apply handleComplete_fst.
  - rewrite toPacket_fst. apply header_fst.
  - intros p. apply new_toPacket_fst.
Qed.

(** C9, as stated, fails twice: the status of a completed command that is
    then acknowledged goes from 0x50 back to 0x40; and [toPacket] turns the
    broadcast flag from true to false on the command decoded from the
    broadcast frame 88 30 02 ff, and on the command that [raw] builds for a
    broadcast. *)
Lemma status_goes_back_and_broadcast_changes :
  let c := new_ViscaCommand (C := visca_constants) no_params in
  let r := raw (C := visca_constants) (-1) [0x09; 0x04; 0x00] in
  status (fst (run (C := visca_constants) [CallComplete None] (c, []))) = 0x50 /\
  status (fst (run (C := visca_constants) [CallComplete None; CallAck] (c, []))) = 0x40 /\
  (exists d, fromPacket (C := visca_constants) [0x88; 0x30; 0x02; 0xff] = JS.Return d /\
             broadcast d = true /\ broadcast (fst (toPacket d)) = false) /\
  broadcast r = true /\ broadcast (fst (toPacket r)) = false.
Proof.
  repeat split. eexists. repeat split.
Qed.

(** ** Round trip *)

(** The header of a command from sources 0 to 7 to recipient 0 or 1 decodes
    to that source and recipient, without the broadcast bit. *)
Lemma header_roundtrip (s r : Z) :
  0 <= s <= 7 -> 0 <= r <= 1 ->
  let h := JS.bor (JS.bor 0x80 (JS.shl s 4)) (JS.band r 0x111) in
  JS.sar (JS.band h 0x70) 4 = s /\ JS.band h 0x07 = r /\
  (JS.sar (JS.band h 0x08) 3 =? 1) = false.
Proof.
  intros Hs Hr.
  assert (Hs' : s = 0 \/ s = 1 \/ s = 2 \/ s = 3 \/ s = 4 \/ s = 5 \/ s = 6 \/ s = 7)
    by lia.
  assert (Hr' : r = 0 \/ r = 1) by lia.
  destruct Hr' as [-> | ->];
    repeat (destruct Hs' as [-> | Hs']; [repeat split |]);
    subst s; repeat split.
Qed.

(** A reply type is one of sixteen multiples of 16. *)
Lemma reply_nibble_cases (m : Z) :
  reply_nibble m -> exists j, m = 16 * j /\ 1 <= j <= 15.
Proof.
  intros [Hm Hmod]. exists (m / 16).
  pose proof (Z.div_mod m 16 ltac:(lia)) as Hdiv. lia.
Qed.

(** A small integer is in the list of the integers of its range. *)
Lemma in_range (lo len : nat) (z : Z) :
  Z.of_nat lo <= z < Z.of_nat lo + Z.of_nat len ->
  In z (map Z.of_nat (seq lo len)).
Proof.
  intros Hz. apply in_map_iff. exists (Z.to_nat z).
  split; [lia |]. apply in_seq. lia.
Qed.

Lemma reply_byte_roundtrip (m k : Z) :
  reply_nibble m -> 0 <= k <= 15 ->
  JS.band (JS.bor m k) 0xF0 = m /\ JS.band (JS.bor m k) 0x0F = k /\
  Z.land (JS.bor m k) 0xF0 = m /\ 0 <= JS.bor m k < 256.
Proof.
  intros Hm Hk.
  destruct (reply_nibble_cases m Hm) as (j & -> & Hj).
  set (check := fun j k : Z =>
    (JS.band (JS.bor (16 * j) k) 0xF0 =? 16 * j)
    && (JS.band (JS.bor (16 * j) k) 0x0F =? k)
    && (Z.land (JS.bor (16 * j) k) 0xF0 =? 16 * j)
    && (0 <=? JS.bor (16 * j) k) && (JS.bor (16 * j) k <? 256)).
  assert (Hall : forallb (fun j => forallb (check j) (map Z.of_nat (seq 0 16)))
                         (map Z.of_nat (seq 1 15)) = true)
    by (vm_compute; reflexivity).
  rewrite forallb_forall in Hall.
  specialize (Hall j (in_range 1 15 j ltac:(lia))).
  rewrite forallb_forall in Hall.
  specialize (Hall k (in_range 0 16 k ltac:(lia))).
  unfold check in Hall.
  repeat (apply Bool.andb_true_iff in Hall; destruct Hall as [Hall ?]).
  repeat split; try (apply Z.eqb_eq; assumption); lia.
Qed.

Section RoundTrip.

Context `{C : Constants}.
Hypothesis wf : constants_wf C.

Lemma reply_types (m : Z) :
  m = MSGTYPE_ACK \/ m = MSGTYPE_COMPLETE \/ m = MSGTYPE_ERROR \/ m = MSGTYPE_CANCEL ->
  reply_nibble m /\
  Z.land MSGTYPE_COMMAND 0xF0 <> m /\ Z.land MSGTYPE_INQUIRY 0xF0 <> m /\
  Z.land MSGTYPE_ADDRESS_SET 0xF0 <> m /\ Z.land MSGTYPE_NETCHANGE 0xF0 <> m.
Proof.
  intros Hm.
  destruct wf as [Hcmd Hinq Hack Hcpl Herr Hcan Hset Hnet _ _ _].
  destruct Hset as (_ & Hs1 & Hs2 & Hs3 & Hs4).
  destruct Hnet as (_ & Hn1 & Hn2 & Hn3 & Hn4).
  assert (Hnib : reply_nibble m).
  { destruct Hm as [-> | [-> | [-> | ->]]]; try assumption;
      rewrite ?Hack, ?Hcpl; unfold reply_nibble; split; try lia; reflexivity. }
  split; [exact Hnib |].
  rewrite Hcmd, Hinq.
  change (Z.land 1 240) with 0. change (Z.land 9 240) with 0.
  destruct Hnib as [Hpos _].
  repeat split; try lia;
    destruct Hm as [-> | [-> | [-> | ->]]]; congruence.
Qed.

(** The message byte of a valid message and socket decodes to them. *)
Lemma message_roundtrip (m k : Z) :
  valid_message m k ->
  (if is_request (Some (JS.bor m k))
   then (JS.bor m k, 0)
   else (JS.band (JS.bor m k) 0xF0, JS.band (JS.bor m k) 0x0F)) = (m, k).
Proof.
  intros [[Hm ->] | [Hm Hk]].
  - assert (Hbyte : 0 <= m < 256).
    { destruct wf as [Hcmd Hinq _ _ _ _ [Hset _] [Hnet _] _ _ _].
      destruct Hm as [-> | [-> | [-> | ->]]]; lia. }
    assert (Hq : JS.bor m 0 = m).
    { unfold JS.bor. rewrite to_int32_small by lia.
      change (JS.to_int32 0) with 0. apply Z.lor_0_r. }
    rewrite Hq.
    assert (Hreq : is_request (Some m) = true).
    { unfold is_request, JS.strict_eq.
      destruct Hm as [-> | [-> | [-> | ->]]];
        rewrite Z.eqb_refl, ?Bool.orb_true_r; reflexivity. }
    rewrite Hreq. reflexivity.
  - destruct (reply_types m Hm) as (Hnib & Hc & Hi & Hs & Hn).
    destruct (reply_byte_roundtrip m k Hnib Hk) as (Hhi & Hlo & Hland & _).
    assert (Hreq : is_request (Some (JS.bor m k)) = false).
    { unfold is_request, JS.strict_eq.
      repeat (apply Bool.orb_false_intro); apply Z.eqb_neq;
        intros Heq; rewrite Heq in Hland; congruence. }
    rewrite Hreq, Hhi, Hlo. reflexivity.
Qed.

(** What a frame decodes to, field by field. *)
Lemma decode_frame (h q : Z) (body : list Z) (t : Z) :
  returned_fields (fromPacket (h :: q :: body ++ [t])) =
  Some (JS.sar (JS.band h 0x70) 4, JS.band h 0x07,
        (JS.sar (JS.band h 0x08) 3 =? 1),
        fst (if is_request (Some q) then (q, 0) else (JS.band q 0xF0, JS.band q 0x0F)),
        snd (if is_request (Some q) then (q, 0) else (JS.band q 0xF0, JS.band q 0x0F)),
        fst (if Z.of_nat (List.length body) <? 2
             then (0, body) else (hd 0 body, tl body)),
        snd (if Z.of_nat (List.length body) <? 2
             then (0, body) else (hd 0 body, tl body))).
Proof.
  unfold fromPacket, returned_fields, wire_fields.
  rewrite parse_source, parse_recipient, parse_broadcast,
    parse_msgType, parse_socket, parse_dataType, parse_data.
  rewrite (wf_mask_source wf), (wf_mask_recipient wf),
    (wf_mask_broadcast wf).
  reflexivity.
Qed.

(** The body of an encoded command splits back into its data type and
    its data. *)
Lemma body_roundtrip (dt : Z) (d : list Z) :
  valid_body dt d ->
  let body := if dt >? 0 then dt :: d else d in
  (if Z.of_nat (List.length body) <? 2
   then (0, body) else (hd 0 body, tl body)) = (dt, d).
Proof.
  intros [[Hdt Hd] | [-> Hd]]; cbv zeta.
  - replace (dt >? 0) with true by (symmetry; apply Z.gtb_lt; lia).
    destruct d as [| x d']; [congruence |].
    cbn [List.length hd tl].
    destruct (Z.ltb_spec (Z.of_nat (S (S (List.length d')))) 2); [lia |].
    reflexivity.
  - change (0 >? 0) with false. cbv iota.
    destruct (Z.ltb_spec (Z.of_nat (List.length d)) 2); [reflexivity | lia].
Qed.

Lemma toPacket_frame (c : ViscaCommand) :
  snd (toPacket c) =
  snd (_header c) :: JS.bor (msgType c) (socket c)
    :: (if dataType c >? 0 then dataType c :: data c else data c) ++ [0xff].
Proof.
  rewrite toPacket_snd. destruct (dataType c >? 0); reflexivity.
Qed.

End RoundTrip.

(** C1, as amended: a command built with a source from 0 to 7, a valid
    message type and socket, and a data type and data that keep their split
    (a data type above 0 with non-empty data, or data type 0 with at most one
    byte of data) decodes from its packet as follows.  Addressed to recipient
    0 or 1, all seven fields come back.  Broadcast (recipient -1), the
    broadcast flag, message type, socket, data type and data come back, and
    source and recipient decode as 0, the 0x88 header carrying neither.
    Recipients 2 to 7 are left out. *)
Theorem packet_roundtrip `{C : Constants} (p : ViscaCommandParams) :
  constants_wf C ->
  let c := new_ViscaCommand p in
  0 <= source c <= 7 ->
  valid_message (msgType c) (socket c) ->
  valid_body (dataType c) (data c) ->
  (0 <= recipient c <= 1 ->
   returned_fields (fromPacket (snd (toPacket c))) = Some (wire_fields c)) /\
  (recipient c = -1 -> broadcast c = true ->
   returned_fields (fromPacket (snd (toPacket c))) =
   Some (0, 0, true, msgType c, socket c, dataType c, data c)).
Proof.
  intros wf c Hsrc Hmsg Hbody.
  pose proof (message_roundtrip wf _ _ Hmsg) as Hm.
  pose proof (body_roundtrip _ _ Hbody) as Hb. cbv zeta in Hb.
  split.
  - intros Hrec.
    assert (Hbc : broadcast c = false).
    { unfold c. rewrite new_broadcast. fold c.
      replace (default (-1) (p_recipient p)) with (recipient c)
        by (unfold c; apply new_recipient).
      replace (recipient c >? -1) with true by (symmetry; apply Z.gtb_lt; lia).
      reflexivity. }
    rewrite toPacket_frame, (decode_frame wf), Hm, Hb.
    rewrite header_snd.
    replace (recipient c >? -1) with true by (symmetry; apply Z.gtb_lt; lia).
    cbn [orb fst snd].
    destruct (header_roundtrip (source c) (recipient c) Hsrc Hrec)
      as (Hs & Hr & Hbr).
    rewrite Hs, Hr, Hbr. unfold wire_fields. rewrite Hbc. reflexivity.
  - intros Hrec Hbc.
    rewrite toPacket_frame, (decode_frame wf), Hm, Hb.
    rewrite header_snd, Hrec, Hbc. reflexivity.
Qed.

Lemma visca_constants_wf : constants_wf visca_constants.
Proof.
  constructor; try reflexivity;
    unfold reply_nibble, standalone_opcode; cbn; repeat split; lia.
Qed.

Lemma packet_roundtrip_witness :
  let c := new_ViscaCommand (C := visca_constants)
             (params_wire 2 1 0x01 0 0x04 [0x00; 0x02]) in
  let b := new_ViscaCommand (C := visca_constants)
             (params_wire 0 (-1) 0x50 2 0 [0x07]) in
  returned_fields (fromPacket (C := visca_constants) (snd (toPacket c)))
    = Some (wire_fields c) /\
  returned_fields (fromPacket (C := visca_constants) (snd (toPacket b)))
    = Some (0, 0, true, msgType b, socket b, dataType b, data b).
Proof.
  intros c b. split.
  - refine (proj1 (packet_roundtrip (C := visca_constants)
              (params_wire 2 1 0x01 0 0x04 [0x00; 0x02])
              visca_constants_wf _ _ _) _).
    + cbn. lia.
    + left. split; [left; reflexivity | reflexivity].
    + left. split; [reflexivity | discriminate].
    + cbn. lia.
  - refine (proj2 (packet_roundtrip (C := visca_constants)
              (params_wire 0 (-1) 0x50 2 0 [0x07])
              visca_constants_wf _ _ _) _ _).
    + cbn. lia.
    + right. split; [right; left; reflexivity | cbn; lia].
    + right. split; [reflexivity | cbn; lia].
    + reflexivity.
    + reflexivity.
Defined.

(** C1, as stated, fails by the design of the frame.  The default command
    is a broadcast with recipient -1; its packet 88 01 ff decodes to
    recipient 0.  A command with data type 4 and no data encodes to
    81 01 04 ff, which decodes to data type 0 and data [[4]].  The interface
    command with data type 0 and data [[0; 1]] encodes to 81 01 00 01 ff,
    which decodes to data [[1]]. *)
Lemma roundtrip_loses_fields :
  let c := new_ViscaCommand (C := visca_constants) no_params in
  let d := new_ViscaCommand (C := visca_constants) (params_wire 0 1 0x01 0 0x04 []) in
  let e := new_ViscaCommand (C := visca_constants)
             (params_wire 0 1 0x01 0 0x00 [0x00; 0x01]) in
  wire_fields c = (0, -1, true, 0x01, 0, 0, []) /\
  snd (toPacket c) = [0x88; 0x01; 0xff] /\
  returned_fields (fromPacket (C := visca_constants) (snd (toPacket c)))
    = Some (0, 0, true, 0x01, 0, 0, []) /\
  wire_fields d = (0, 1, false, 0x01, 0, 0x04, []) /\
  snd (toPacket d) = [0x81; 0x01; 0x04; 0xff] /\
  returned_fields (fromPacket (C := visca_constants) (snd (toPacket d)))
    = Some (0, 1, false, 0x01, 0, 0, [0x04]) /\
  wire_fields e = (0, 1, false, 0x01, 0, 0, [0x00; 0x01]) /\
  snd (toPacket e) = [0x81; 0x01; 0x00; 0x01; 0xff] /\
  returned_fields (fromPacket (C := visca_constants) (snd (toPacket e)))
    = Some (0, 1, false, 0x01, 0, 0, [0x01]).
Proof. repeat split. Qed.

(** * Further properties of the code *)

(** ** Masks *)

(** Masking with a constant below [2 ^ k] gives a value from 0 below
    [2 ^ k], whatever is masked. *)
Lemma land_below (a m k : Z) :
  0 <= k -> 0 <= m < 2 ^ k -> 0 <= Z.land a m < 2 ^ k.
Proof.
  intros Hk Hm.
  assert (Hpos : 0 <= Z.land a m) by (apply Z.land_nonneg; right; lia).
  split; [exact Hpos |].
  assert (Heq : Z.land a m = Z.land a m mod 2 ^ k).
  { apply Z.bits_inj'. intros n Hn.
    destruct (Z_lt_le_dec n k) as [Hlow | Hhigh].
    - rewrite Z.mod_pow2_bits_low by lia. reflexivity.
    - rewrite Z.mod_pow2_bits_high by lia.
      rewrite Z.land_spec, <- (Z.mod_small m (2 ^ k)) by lia.
      rewrite Z.mod_pow2_bits_high by lia. apply Bool.andb_false_r. }
  rewrite Heq. apply Z.mod_pos_bound. lia.
Qed.

Lemma band_below (x m k : Z) :
  0 <= k <= 31 -> 0 <= m < 2 ^ k -> 0 <= JS.band x m < 2 ^ k.
Proof.
  intros Hk Hm. unfold JS.band.
  assert (Hpow : 2 ^ k <= 2 ^ 31) by (apply Z.pow_le_mono_r; lia).
  rewrite (to_int32_small m) by lia.
  apply land_below; lia.
Qed.

(** A byte is the bitwise or of its two nibbles, and of itself and 0. *)
Lemma byte_of_nibbles (q : Z) :
  0 <= q <= 255 ->
  JS.bor (JS.band q 0xF0) (JS.band q 0x0F) = q /\ JS.bor q 0 = q.
Proof.
  intros Hq.
  assert (Hall : forallb (fun q => (JS.bor (JS.band q 0xF0) (JS.band q 0x0F) =? q)
                                   && (JS.bor q 0 =? q))
                         (map Z.of_nat (seq 0 256)) = true)
    by (vm_compute; reflexivity).
  rewrite forallb_forall in Hall.
  specialize (Hall q (in_range 0 256 q ltac:(lia))).
  apply Bool.andb_true_iff in Hall. destruct Hall as [H1 H2].
  split; apply Z.eqb_eq; assumption.
Qed.

(** The headers that the encoder rebuilds from their own decoding: bit 7
    set, a source from 0 to 7, bit 0 free, bits 1 to 3 clear. *)
Lemma header_reencoded (s r : Z) :
  0 <= s <= 7 -> 0 <= r <= 1 ->
  let h := 0x80 + 16 * s + r in
  JS.bor (JS.bor 0x80 (JS.shl (JS.sar (JS.band h 0x70) 4) 4))
         (JS.band (JS.band h 0x07) 0x111) = h.
Proof.
  intros Hs Hr.
  assert (Hall : forallb (fun s => forallb (fun r =>
            let h := 0x80 + 16 * s + r in
            JS.bor (JS.bor 0x80 (JS.shl (JS.sar (JS.band h 0x70) 4) 4))
                   (JS.band (JS.band h 0x07) 0x111) =? h)
            (map Z.of_nat (seq 0 2))) (map Z.of_nat (seq 0 8)) = true)
    by (vm_compute; reflexivity).
  rewrite forallb_forall in Hall.
  specialize (Hall s (in_range 0 8 s ltac:(lia))).
  rewrite forallb_forall in Hall.
  specialize (Hall r (in_range 0 2 r ltac:(lia))).
  apply Z.eqb_eq. exact Hall.
Qed.

(** ** Decoding any array *)

Section DecoderAny.

Context `{C : Constants}.
Variables (v : ViscaCommand) (packet : list Z).

Lemma parse_any_source :
  source (_parsePacket v packet) =
  JS.sar (JS.band (JS.int_of (JS.index packet 0)) HEADERMASK_SOURCE) 4.
Proof. unfold _parsePacket. split_parse. Qed.

Lemma parse_any_recipient :
  recipient (_parsePacket v packet) =
  JS.band (JS.int_of (JS.index packet 0)) HEADERMASK_RECIPIENT.
Proof. unfold _parsePacket. split_parse. Qed.

Lemma parse_any_message :
  (msgType (_parsePacket v packet), socket (_parsePacket v packet)) =
  if is_request (JS.index packet 1)
  then (JS.int_of (JS.index packet 1), 0)
  else (JS.band (JS.int_of (JS.index packet 1)) 0xF0,
        JS.band (JS.int_of (JS.index packet 1)) 0x0F).
Proof. unfold _parsePacket. split_parse. Qed.

Lemma parse_any_functions :
  status (_parsePacket v packet) = status v /\
  dataParser (_parsePacket v packet) = dataParser v /\
  onAck (_parsePacket v packet) = onAck v /\
  onComplete (_parsePacket v packet) = onComplete v /\
  onError (_parsePacket v packet) = onError v /\
  packetHexString (_parsePacket v packet) = _hexify packet.
Proof. unfold _parsePacket. repeat split; split_parse. Qed.

End DecoderAny.

(** X1: whatever array is decoded (any length, any numbers), the decoded
    source and recipient are from 0 to 7 and the socket from 0 to 15; when
    the second item is not one of the four request opcodes the message type
    is a multiple of 16 from 0 to 240. *)
Theorem decoded_fields_in_range `{C : Constants} (packet : list Z) (c : ViscaCommand) :
  constants_wf C ->
  fromPacket packet = JS.Return c ->
  0 <= source c <= 7 /\ 0 <= recipient c <= 7 /\ 0 <= socket c <= 15 /\
  (is_request (JS.index packet 1) = false ->
   0 <= msgType c <= 240 /\ msgType c mod 16 = 0).
Proof.
  intros wf Hdec. injection Hdec as <-.
  set (v := new_ViscaCommand no_params).
  pose proof (f_equal fst (parse_any_message v packet)) as Hmt.
  pose proof (f_equal snd (parse_any_message v packet)) as Hso.
  cbn [fst snd] in Hmt, Hso.
  split; [| split; [| split]].
  - rewrite parse_any_source, (wf_mask_source wf).
    set (h := JS.int_of (JS.index packet 0)).
    pose proof (band_below h 0x70 7 ltac:(lia) ltac:(lia)) as Hb.
    unfold JS.sar. rewrite to_int32_small by lia.
    unfold JS.band. change (JS.to_int32 112) with 112. change (4 mod 32) with 4.
    rewrite Z.shiftr_land. change (Z.shiftr 112 4) with 7.
    pose proof (land_below (Z.shiftr (JS.to_int32 h) 4) 7 3 ltac:(lia) ltac:(lia)).
    lia.
  - rewrite parse_any_recipient, (wf_mask_recipient wf).
    pose proof (band_below (JS.int_of (JS.index packet 0)) 0x07 3
                  ltac:(lia) ltac:(lia)).
    lia.
  - rewrite Hso. destruct (is_request (JS.index packet 1)); cbn [snd]; [lia |].
    pose proof (band_below (JS.int_of (JS.index packet 1)) 0x0F 4
                  ltac:(lia) ltac:(lia)).
    lia.
  - intros Hreq. rewrite Hmt, Hreq. cbn [fst].
    set (q := JS.int_of (JS.index packet 1)).
    pose proof (band_below q 0xF0 8 ltac:(lia) ltac:(lia)) as Hb.
    assert (Hmod : JS.band q 0xF0 mod 16 = 0).
    { change 16 with (2 ^ 4). rewrite <- Z.land_ones by lia.
      unfold JS.band. change (JS.to_int32 240) with 240.
      rewrite <- Z.land_assoc. change (Z.land 240 (Z.ones 4)) with 0.
      apply Z.land_0_r. }
    split; [| exact Hmod].
    pose proof (Z.div_mod (JS.band q 0xF0) 16 ltac:(lia)). lia.
Qed.

Lemma decoded_fields_in_range_witness :
  let c := _parsePacket (C := visca_constants)
             (new_ViscaCommand (C := visca_constants) no_params)
             [0x1FF; 0x12345; 7; 8] in
  0 <= source c <= 7 /\ 0 <= recipient c <= 7 /\ 0 <= socket c <= 15 /\
  0 <= msgType c <= 240 /\ msgType c mod 16 = 0.
Proof.
  intros c.
  destruct (decoded_fields_in_range (C := visca_constants) _ c visca_constants_wf
              eq_refl) as (Hs & Hr & Hk & Hm).
  destruct (Hm eq_refl) as (Hm1 & Hm2).
  repeat split; first [apply Hs | apply Hr | apply Hk | apply Hm1 | exact Hm2].
Defined.

(** ** Encoding what was decoded *)

Lemma fromPacket_inv `{C : Constants} (packet : list Z) (c : ViscaCommand) :
  fromPacket packet = JS.Return c ->
  c = _parsePacket (new_ViscaCommand no_params) packet.
Proof. unfold fromPacket. intros Hdec. injection Hdec as <-. reflexivity. Qed.

Section Reencode.

Context `{C : Constants}.
Hypothesis wf : constants_wf C.

(** A decoded recipient is never the broadcast sentinel. *)
Lemma parsed_recipient_nonneg (v : ViscaCommand) (packet : list Z) :
  (recipient (_parsePacket v packet) >? -1) = true.
Proof.
  rewrite parse_any_recipient, (wf_mask_recipient wf).
  pose proof (band_below (JS.int_of (JS.index packet 0)) 0x07 3
                ltac:(lia) ltac:(lia)).
  apply Z.gtb_lt. lia.
Qed.

(** The packet of a decoded frame, item by item. *)
Lemma reencode_frame (v : ViscaCommand) (h q : Z) (body : list Z) (t : Z) :
  snd (toPacket (_parsePacket v (h :: q :: body ++ [t]))) =
  JS.bor (JS.bor 0x80 (JS.shl (JS.sar (JS.band h 0x70) 4) 4))
         (JS.band (JS.band h 0x07) 0x111)
  :: JS.bor (fst (if is_request (Some q) then (q, 0)
                  else (JS.band q 0xF0, JS.band q 0x0F)))
            (snd (if is_request (Some q) then (q, 0)
                  else (JS.band q 0xF0, JS.band q 0x0F)))
  :: (if fst (if Z.of_nat (List.length body) <? 2
              then (0, body) else (hd 0 body, tl body)) >? 0
      then hd 0 body :: tl body
      else snd (if Z.of_nat (List.length body) <? 2
                then (0, body) else (hd 0 body, tl body)))
     ++ [0xff].
Proof.
  rewrite toPacket_frame, header_snd, parsed_recipient_nonneg. cbn [orb].
  rewrite parse_source, parse_recipient, parse_msgType, parse_socket,
    parse_dataType, parse_data.
  rewrite (wf_mask_source wf), (wf_mask_recipient wf).
  destruct (Z.of_nat (List.length body) <? 2); reflexivity.
Qed.

(** The message byte of a decoded byte is that byte. *)
Lemma reencode_message (q : Z) :
  0 <= q <= 255 ->
  JS.bor (fst (if is_request (Some q) then (q, 0)
               else (JS.band q 0xF0, JS.band q 0x0F)))
         (snd (if is_request (Some q) then (q, 0)
               else (JS.band q 0xF0, JS.band q 0x0F))) = q.
Proof.
  intros Hq. destruct (byte_of_nibbles q Hq) as [Hnib Hzero].
  destruct (is_request (Some q)); assumption.
Qed.

(** The body of a decoded body is that body, unless it has two bytes or
    more and does not start with a positive one. *)
Lemma reencode_body (body : list Z) :
  (List.length body < 2)%nat \/ 0 < hd 0 body ->
  (if fst (if Z.of_nat (List.length body) <? 2
           then (0, body) else (hd 0 body, tl body)) >? 0
   then hd 0 body :: tl body
   else snd (if Z.of_nat (List.length body) <? 2
             then (0, body) else (hd 0 body, tl body))) = body.
Proof.
  intros Hbody.
  destruct (Z.ltb_spec (Z.of_nat (List.length body)) 2) as [Hshort | Hlong];
    cbn [fst snd].
  - reflexivity.
  - destruct Hbody as [Hlen | Hpos]; [lia |].
    replace (hd 0 body >? 0) with true by (symmetry; apply Z.gtb_lt; lia).
    destruct body; [cbn in Hlong; lia | reflexivity].
Qed.

End Reencode.

(** X2: a decoded frame encodes back to itself, with 0xff as its last byte,
    when its header is 0x80 + 16 * source + recipient with a source from 0 to
    7 and a recipient 0 or 1, its second byte is a byte, and its body has
    fewer than two bytes or starts with a positive byte. *)
Theorem reencode_decoded_frame `{C : Constants}
    (s r q t : Z) (body : list Z) (c : ViscaCommand) :
  constants_wf C ->
  0 <= s <= 7 -> 0 <= r <= 1 -> 0 <= q <= 255 ->
  (List.length body < 2)%nat \/ 0 < hd 0 body ->
  fromPacket ((0x80 + 16 * s + r) :: q :: body ++ [t]) = JS.Return c ->
  snd (toPacket c) = (0x80 + 16 * s + r) :: q :: body ++ [0xff].
Proof.
  intros wf Hs Hr Hq Hbody Hdec. apply fromPacket_inv in Hdec. subst c.
  rewrite (reencode_frame wf), (reencode_message q Hq), (reencode_body body Hbody).
  rewrite (header_reencoded s r Hs Hr). reflexivity.
Qed.

Lemma reencode_decoded_frame_witness :
  snd (toPacket (_parsePacket (C := visca_constants)
         (new_ViscaCommand (C := visca_constants) no_params)
         ((0x80 + 16 * 1 + 0) :: 0x50 :: [0x04; 0x02] ++ [0x00])))
  = (0x80 + 16 * 1 + 0) :: 0x50 :: [0x04; 0x02] ++ [0xff].
Proof.
  apply (reencode_decoded_frame (C := visca_constants) 1 0 0x50 0x00 [0x04; 0x02]).
  - exact visca_constants_wf.
  - lia.
  - lia.
  - lia.
  - right. cbn. lia.
  - reflexivity.
Defined.

(** X3: a decoded frame whose body has two bytes or more and starts with a
    byte that is not positive (a 0 category) loses that byte when it is
    encoded again: the packet continues after its message byte with the
    second body byte. *)
Theorem reencode_drops_zero_category `{C : Constants}
    (h q b0 b1 t : Z) (rest : list Z) (c : ViscaCommand) :
  b0 <= 0 ->
  fromPacket (h :: q :: (b0 :: b1 :: rest) ++ [t]) = JS.Return c ->
  dataType c = b0 /\ data c = b1 :: rest /\
  skipn 2 (snd (toPacket c)) = b1 :: rest ++ [0xff].
Proof.
  intros Hb Hdec. apply fromPacket_inv in Hdec. subst c.
  set (v := new_ViscaCommand no_params).
  assert (Hdt : dataType (_parsePacket v (h :: q :: (b0 :: b1 :: rest) ++ [t])) = b0).
  { rewrite parse_dataType. cbn [List.length hd].
    destruct (Z.ltb_spec (Z.of_nat (S (S (List.length rest)))) 2); [lia |].
    reflexivity. }
  assert (Hd : data (_parsePacket v (h :: q :: (b0 :: b1 :: rest) ++ [t]))
               = b1 :: rest).
  { rewrite parse_data. cbn [List.length tl].
    destruct (Z.ltb_spec (Z.of_nat (S (S (List.length rest)))) 2); [lia |].
    reflexivity. }
  split; [exact Hdt |]. split; [exact Hd |].
  rewrite toPacket_frame, Hdt, Hd.
  replace (b0 >? 0) with false by (symmetry; rewrite Z.gtb_ltb; apply Z.ltb_ge; lia).
  reflexivity.
Qed.

Lemma reencode_drops_zero_category_witness :
  let c := _parsePacket (C := visca_constants)
             (new_ViscaCommand (C := visca_constants) no_params)
             (0x81 :: 0x01 :: (0x00 :: 0x01 :: []) ++ [0xff]) in
  dataType c = 0x00 /\ data c = 0x01 :: [] /\
  skipn 2 (snd (toPacket c)) = 0x01 :: [] ++ [0xff].
Proof.
  intros c.
  apply (reencode_drops_zero_category (C := visca_constants)
           0x81 0x01 0x00 0x01 0xff []).
  - lia.
  - reflexivity.
Defined.

(** X4: no decoded command encodes as a broadcast.  Whatever array was
    decoded, a frame with the 0x88 header included, encoding the result
    clears its broadcast flag and gives a header with bit 3 clear. *)
Theorem decoded_never_broadcast `{C : Constants} (packet : list Z) (c : ViscaCommand) :
  constants_wf C ->
  fromPacket packet = JS.Return c ->
  broadcast (fst (toPacket c)) = false /\
  Z.testbit (hd 0 (snd (toPacket c))) 3 = false /\
  hd 0 (snd (toPacket c)) <> 0x88.
Proof.
  intros wf Hdec. apply fromPacket_inv in Hdec.
  pose proof (parsed_recipient_nonneg wf (new_ViscaCommand no_params) packet) as Hr.
  rewrite <- Hdec in Hr.
  assert (Hhd : hd 0 (snd (toPacket c)) =
                JS.bor (JS.bor 0x80 (JS.shl (source c) 4)) (JS.band (recipient c) 0x111)).
  { rewrite toPacket_frame, header_snd, Hr. reflexivity. }
  split; [| split].
  - rewrite toPacket_fst, header_fst, Hr. reflexivity.
  - rewrite Hhd. apply addressed_header_bit3.
  - rewrite Hhd. apply addressed_header_not_broadcast.
Qed.

Lemma decoded_never_broadcast_witness :
  let c := _parsePacket (C := visca_constants)
             (new_ViscaCommand (C := visca_constants) no_params)
             [0x88; 0x30; 0x01; 0xff] in
  broadcast c = true /\
  broadcast (fst (toPacket c)) = false /\
  Z.testbit (hd 0 (snd (toPacket c))) 3 = false /\
  hd 0 (snd (toPacket c)) <> 0x88.
Proof.
  intros c. split; [reflexivity |].
  exact (decoded_never_broadcast (C := visca_constants) _ c visca_constants_wf
           eq_refl).
Defined.

(** ** Raw commands *)

(** The header [raw] puts in front of its bytes, for a recipient from -1
    to 7. *)
Lemma raw_header `{C : Constants} (r : Z) :
  -1 <= r <= 7 ->
  snd (_header (new_ViscaCommand (params_recipient r))) =
  if r <? 0 then 0x88 else 0x80 + r mod 2.
Proof.
  intros Hr.
  rewrite header_snd, new_recipient, new_broadcast, new_source.
  cbn [params_recipient p_recipient p_broadcast p_source default].
  assert (Hr' : r = -1 \/ r = 0 \/ r = 1 \/ r = 2 \/ r = 3 \/ r = 4 \/ r = 5 \/
                r = 6 \/ r = 7) by lia.
  repeat (destruct Hr' as [-> | Hr']; [reflexivity |]).
  subst r. reflexivity.
Qed.

(** X5: the packet of a command built by [raw] for a recipient from -1 to 7,
    from a message byte and a body that has fewer than two bytes or starts
    with a positive byte, is those bytes between a header and 0xff; the
    header is 0x80 plus the lowest bit of the recipient, and 0x80 for the
    broadcast recipient -1. *)
Theorem raw_packet `{C : Constants} (r q : Z) (body : list Z) :
  constants_wf C ->
  -1 <= r <= 7 -> 0 <= q <= 255 ->
  (List.length body < 2)%nat \/ 0 < hd 0 body ->
  snd (toPacket (raw r (q :: body))) =
  (0x80 + (if r <? 0 then 0 else r mod 2)) :: q :: body ++ [0xff].
Proof.
  intros wf Hr Hq Hbody.
  unfold raw. fold (params_recipient r).
  pose proof (raw_header r Hr) as Hh.
  destruct (_header (new_ViscaCommand (params_recipient r))) as [v h].
  cbn [snd] in Hh. subst h.
  change ([if r <? 0 then 136 else 128 + r mod 2] ++ (q :: body) ++ [255])
    with ((if r <? 0 then 136 else 128 + r mod 2) :: q :: body ++ [255]).
  rewrite (reencode_frame wf), (reencode_message q Hq), (reencode_body body Hbody).
  f_equal.
  destruct (Z.ltb_spec r 0) as [Hneg | Hpos].
  - reflexivity.
  - pose proof (Z.mod_pos_bound r 2 ltac:(lia)) as Hm.
    replace (128 + r mod 2) with (0x80 + 16 * 0 + r mod 2) by lia.
    apply header_reencoded; lia.
Qed.

Lemma raw_packet_witness :
  snd (toPacket (raw (C := visca_constants) (-1) (0x09 :: [0x7e; 0x7e; 0x00]))) =
  (0x80 + (if -1 <? 0 then 0 else -1 mod 2)) :: 0x09 :: [0x7e; 0x7e; 0x00] ++ [0xff].
Proof.
  apply (raw_packet (C := visca_constants) (-1) 0x09 [0x7e; 0x7e; 0x00]).
  - exact visca_constants_wf.
  - lia.
  - lia.
  - right. cbn. lia.
Defined.

(** ** The shape of a packet *)

(** X6: the encoder never produces a frame the specification calls
    malformed: every packet ends with 0xff and has three items more than the
    data, four when the data type is positive. *)
Theorem toPacket_well_formed (c : ViscaCommand) :
  ~ malformed (snd (toPacket c)) /\
  List.length (snd (toPacket c)) =
    ((if dataType c >? 0 then 4 else 3) + List.length (data c))%nat.
Proof.
  assert (Hlen : List.length (snd (toPacket c)) =
            ((if dataType c >? 0 then 4 else 3) + List.length (data c))%nat).
  { rewrite toPacket_snd.
    destruct (dataType c >? 0); cbn [List.length app];
      rewrite length_app; cbn [List.length]; lia. }
  split; [| exact Hlen].
  intros [Hshort | Hlast].
  - rewrite Hlen in Hshort. destruct (dataType c >? 0); lia.
  - apply Hlast. rewrite toPacket_frame.
    change (snd (_header c) :: JS.bor (msgType c) (socket c)
              :: (if dataType c >? 0 then dataType c :: data c else data c) ++ [255])
      with ((snd (_header c) :: JS.bor (msgType c) (socket c)
              :: (if dataType c >? 0 then dataType c :: data c else data c)) ++ [255]).
    apply last_last.
Qed.

(** ** The hex string *)

Lemma toPacket_set_packetHexString (s : string) (c : ViscaCommand) :
  snd (toPacket (set_packetHexString s c)) = snd (toPacket c).
Proof. rewrite !toPacket_snd, !header_snd. reflexivity. Qed.

Lemma step_keeps_packetHexString `{C : Constants}
    (k : call) (c : ViscaCommand) (t : trace) :
  packetHexString (fst (step k (c, t))) = packetHexString c.
Proof.
  destruct k as [| | err | d]; cbn [step].
  - cbn [fst]. rewrite toPacket_fst, header_fst.
    destruct (recipient c >? -1); reflexivity.
  - reflexivity.
  - reflexivity.
  - rewrite handleComplete_fst. reflexivity.
Qed.

(** X7: the hex string of a command from the constructor is the hex form of
    its packet, and stays so along every sequence of [toPacket],
    [handleAck], [handleError] and [handleComplete] calls. *)
Theorem packetHexString_is_packet `{C : Constants}
    (p : ViscaCommandParams) (ks : list call) (t : trace) :
  let c := fst (run ks (new_ViscaCommand p, t)) in
  packetHexString c = _hexify (snd (toPacket c)).
Proof.
  cbv zeta.
  assert (Hinit : packetHexString (new_ViscaCommand p) =
                  _hexify (snd (toPacket (new_ViscaCommand p)))).
  { rewrite new_unfold at 2. rewrite toPacket_set_packetHexString.
    rewrite <- toPacket_fst, toPacket_idempotent.
    rewrite new_unfold. reflexivity. }
  revert Hinit. generalize (new_ViscaCommand p) as c. revert t.
  induction ks as [| k ks IH]; intros t c Hc; [exact Hc |].
  cbn [run]. destruct (step k (c, t)) as [c' t'] eqn:Hstep.
  apply IH.
  pose proof (step_keeps_packetHexString k c t) as Hhex.
  pose proof (step_keeps_packet k c t) as Hpk.
  rewrite Hstep in Hhex, Hpk. cbn [fst] in Hhex, Hpk.
  rewrite Hhex, Hpk. exact Hc.
Qed.

(** ** Cancel *)

(** A reply type and a socket combine without carry. *)
Lemma reply_byte_sum (m k : Z) :
  reply_nibble m -> 0 <= k <= 15 -> JS.bor m k = m + k.
Proof.
  intros Hm Hk.
  destruct (reply_nibble_cases m Hm) as (j & -> & Hj).
  assert (Hall : forallb (fun j => forallb (fun k =>
            JS.bor (16 * j) k =? 16 * j + k) (map Z.of_nat (seq 0 16)))
            (map Z.of_nat (seq 1 15)) = true)
    by (vm_compute; reflexivity).
  rewrite forallb_forall in Hall.
  specialize (Hall j (in_range 1 15 j ltac:(lia))).
  rewrite forallb_forall in Hall.
  specialize (Hall k (in_range 0 16 k ltac:(lia))).
  apply Z.eqb_eq. exact Hall.
Qed.

(** X8: [cancel] for a socket from 0 to 15 keeps the socket inside the
    message type: the command has message type Cancel + socket and socket 0,
    no data, and a description that names the socket; its packet is a
    header, the byte Cancel + socket and 0xff, and decodes to message type
    Cancel with that socket. *)
Theorem cancel_packet `{C : Constants} (r s : Z) :
  constants_wf C ->
  0 <= s <= 15 ->
  let c := cancel (Some r) (Some s) in
  msgType c = MSGTYPE_CANCEL + s /\ socket c = 0 /\
  dataType c = 0 /\ data c = [] /\
  description c = ("cancel command in buffer " ++ number_to_string s)%string /\
  skipn 1 (snd (toPacket c)) = [MSGTYPE_CANCEL + s; 0xff] /\
  exists d, fromPacket (snd (toPacket c)) = JS.Return d /\
            msgType d = MSGTYPE_CANCEL /\ socket d = s /\
            dataType d = 0 /\ data d = [].
Proof.
  intros wf Hs c.
  pose proof (wf_cancel wf) as Hnib.
  pose proof (reply_byte_sum _ s Hnib Hs) as Hsum.
  destruct (reply_byte_roundtrip _ s Hnib Hs) as (_ & _ & _ & Hbyte).
  assert (Hm : msgType c = MSGTYPE_CANCEL + s).
  { unfold c, cancel. rewrite new_msgType. cbn [p_msgType default]. exact Hsum. }
  assert (Hk : socket c = 0) by (unfold c, cancel; rewrite new_socket; reflexivity).
  assert (Hdt : dataType c = 0) by (unfold c, cancel; rewrite new_dataType; reflexivity).
  assert (Hd : data c = []) by (unfold c, cancel; rewrite new_data; reflexivity).
  assert (Hq : JS.bor (msgType c) (socket c) = MSGTYPE_CANCEL + s).
  { rewrite Hm, Hk. apply byte_of_nibbles. lia. }
  assert (Hpk : snd (toPacket c) =
                snd (_header c) :: (MSGTYPE_CANCEL + s) :: [] ++ [0xff]).
  { rewrite toPacket_frame, Hq, Hdt, Hd. reflexivity. }
  repeat (split; [assumption || idtac |]).
  - unfold c, cancel. rewrite new_unfold, header_fst. unfold assigned. cbn.
    destruct (r >? -1); reflexivity.
  - rewrite Hpk. reflexivity.
  - eexists. split; [reflexivity |].
    rewrite Hpk.
    pose proof (message_roundtrip wf MSGTYPE_CANCEL s
                  (or_intror (conj (or_intror (or_intror (or_intror eq_refl))) Hs)))
      as Hmsg.
    rewrite Hsum in Hmsg.
    rewrite parse_msgType, parse_socket, parse_dataType, parse_data, Hmsg.
    repeat split.
Qed.

Lemma cancel_packet_witness :
  let c := cancel (C := visca_constants) (Some 1) (Some 2) in
  msgType c = 0x20 + 2 /\ socket c = 0 /\
  dataType c = 0 /\ data c = [] /\
  description c = ("cancel command in buffer " ++ number_to_string 2)%string /\
  skipn 1 (snd (toPacket c)) = [0x20 + 2; 0xff] /\
  exists d, fromPacket (C := visca_constants) (snd (toPacket c)) = JS.Return d /\
            msgType d = 0x20 /\ socket d = 2 /\
            dataType d = 0 /\ data d = [].
Proof.
  apply (cancel_packet (C := visca_constants) 1 2).
  - exact visca_constants_wf.
  - lia.
Defined.

(** ** The serial transport *)

(** X9: on a closed port, sending a command any number of times writes
    nothing, prints nothing and leaves the command as it was: the command is
    not even encoded. *)
Theorem closed_port_sends_nothing (n : nat) (c : ViscaCommand) (tr : SerialTransport) :
  isOpen (serialport tr) = false ->
  send_times n c tr = (tr, c).
Proof.
  intros Hclosed.
  induction n as [| n IH]; [reflexivity |].
  cbn [send_times]. unfold send, write. rewrite Hclosed. cbn [negb]. exact IH.
Qed.

Lemma closed_port_sends_nothing_witness :
  send_times 3 (new_ViscaCommand (C := visca_constants) no_params)
             (fresh_transport false)
  = (fresh_transport false, new_ViscaCommand (C := visca_constants) no_params).
Proof.
  apply closed_port_sends_nothing. reflexivity.
Defined.

(** X10: on an open port, sending a command [n] times hands its packet to
    the port [n] times, the same packet each time, prints one line per
    packet when debugging is on, and leaves the port open and the encoding
    of the command unchanged. *)
Theorem open_port_sends_packet (n : nat) (c : ViscaCommand) (tr : SerialTransport) :
  isOpen (serialport tr) = true ->
  let tr' := fst (send_times n c tr) in
  let c' := snd (send_times n c tr) in
  written (serialport tr') = written (serialport tr) ++ repeat (snd (toPacket c)) n /\
  console tr' =
    console tr ++ (if debug tr then repeat (sent_line (snd (toPacket c))) n else []) /\
  isOpen (serialport tr') = true /\ debug tr' = debug tr /\
  snd (toPacket c') = snd (toPacket c).
Proof.
  revert c tr.
  induction n as [| n IH]; intros c tr Hopen; cbv zeta.
  - cbn [send_times fst snd repeat]. rewrite !app_nil_r.
    destruct (debug tr); rewrite ?app_nil_r; repeat split; assumption.
  - cbn [send_times]. unfold send, write. rewrite Hopen. cbn [negb].
    pose proof (toPacket_idempotent c) as Hidem.
    destruct (toPacket c) as [c1 pk] eqn:Hpk. cbn [fst snd] in *.
    set (tr1 := {| serialport := {| isOpen := true;
                                   written := written (serialport tr) ++ [pk] |};
                   debug := debug tr;
                   console := if debug tr then console tr ++ [sent_line pk]
                              else console tr |}).
    specialize (IH c1 tr1 eq_refl). cbv zeta in IH.
    rewrite Hidem in IH. cbn [snd] in IH.
    destruct IH as (Hw & Hc & Ho & Hd & Hp).
    rewrite Hw, Hc, Ho, Hd, Hp. subst tr1. cbn [serialport written debug console].
    repeat split.
    + rewrite <- app_assoc. reflexivity.
    + destruct (debug tr); [rewrite <- app_assoc; reflexivity |].
      reflexivity.
Qed.

Lemma open_port_sends_packet_witness :
  let c := new_ViscaCommand (C := visca_constants) (params_recipient 1) in
  let tr' := fst (send_times 2 c (fresh_transport true)) in
  let c' := snd (send_times 2 c (fresh_transport true)) in
  written (serialport tr') =
    written (serialport (fresh_transport true)) ++ repeat (snd (toPacket c)) 2 /\
  console tr' =
    console (fresh_transport true) ++
    (if debug (fresh_transport true)
     then repeat (sent_line (snd (toPacket c))) 2 else []) /\
  isOpen (serialport tr') = true /\ debug tr' = debug (fresh_transport true) /\
  snd (toPacket c') = snd (toPacket c).
Proof.
  intros c.
  apply (open_port_sends_packet 2 c (fresh_transport true)). reflexivity.
Defined.

(** ** Zoom and focus drive values *)

(** [x & 7] is [x] modulo 8, for every integer. *)
Lemma band_7 (x : Z) : JS.band x 7 = x mod 8.
Proof.
  unfold JS.band. change (JS.to_int32 7) with 7.
  assert (Heq : Z.land (JS.to_int32 x) 7 = Z.land x 7).
  { apply Z.bits_inj'. intros n Hn. rewrite !Z.land_spec.
    destruct (Z_lt_le_dec n 32) as [Hlow | Hhigh].
    - rewrite to_int32_testbit by lia. reflexivity.
    - rewrite (Z.bits_above_log2 7 n) by (cbn; lia).
      rewrite !Bool.andb_false_r. reflexivity. }
  rewrite Heq. change 7 with (Z.ones 3). rewrite Z.land_ones by lia.
  reflexivity.
Qed.

Lemma shl_8 (x : Z) : 0 <= x < 2 ^ 23 -> JS.shl x 8 = 256 * x.
Proof.
  intros Hx. unfold JS.shl. change (8 mod 32) with 8.
  rewrite (to_int32_small x) by lia.
  rewrite Z.shiftl_mul_pow2 by lia.
  rewrite to_int32_small by lia. lia.
Qed.

(** X11: a stop ignores the speed: the zoom and the focus drive builders
    called with the stop direction, or with no direction, give the stop
    command whatever speed comes with it, and its payload is
    [[CAM_ZOOM; DATA_RESET]]. *)
Theorem drive_stop_ignores_speed `{C : Constants} `{K : Catalog}
    (device : Z) (speed : option Z) :
  cmdCameraZoom device (Some DATA_RESET) speed = cmdCameraZoomStop device /\
  cmdCameraZoom device None speed = cmdCameraZoomStop device /\
  cmdCameraFocus device (Some DATA_RESET) speed = cmdCameraFocusStop device /\
  cmdCameraFocus device None speed = cmdCameraFocusStop device /\
  data (cmdCameraZoomStop device) = [CAM_ZOOM; DATA_RESET] /\
  data (cmdCameraFocusStop device) = [CAM_ZOOM; DATA_RESET].
Proof.
  assert (Hstop : forall sp : Z,
            (sp >? -1) && negb (DATA_RESET =? DATA_RESET) = false).
  { intros sp. rewrite Z.eqb_refl. apply Bool.andb_false_r. }
  unfold cmdCameraZoomStop, cmdCameraFocusStop, cmdCameraZoom, cmdCameraFocus.
  cbn [default]. rewrite !Hstop.
  repeat split; unfold cmdCamera, cmd; rewrite new_data; reflexivity.
Qed.

(** X12: with a speed of 0 or more and a direction from 1 below 2 ^ 23 that
    is not the stop value, the second payload item of a zoom or focus drive
    is 256 times the direction plus the speed modulo 8, which is more than a
    byte holds; without a speed it is the direction. *)
Theorem drive_value_with_speed `{C : Constants} `{K : Catalog}
    (device dir speed : Z) :
  0 <= speed -> 0 < dir < 2 ^ 23 -> dir <> DATA_RESET ->
  data (cmdCameraZoom device (Some dir) (Some speed)) =
    [CAM_ZOOM; 256 * dir + speed mod 8] /\
  data (cmdCameraFocus device (Some dir) (Some speed)) =
    [CAM_ZOOM; 256 * dir + speed mod 8] /\
  255 < 256 * dir + speed mod 8 /\
  data (cmdCameraZoom device (Some dir) None) = [CAM_ZOOM; dir] /\
  data (cmdCameraFocus device (Some dir) None) = [CAM_ZOOM; dir].
Proof.
  intros Hsp Hdir Hne.
  assert (Hgo : (speed >? -1) && negb (dir =? DATA_RESET) = true).
  { apply Bool.andb_true_iff. split; [apply Z.gtb_lt; lia |].
    apply Bool.negb_true_iff, Z.eqb_neq. exact Hne. }
  pose proof (Z.mod_pos_bound speed 8 ltac:(lia)) as Hm.
  unfold cmdCameraZoom, cmdCameraFocus, cmdCamera, cmd.
  rewrite !new_data. cbn [default p_data]. rewrite Hgo.
  change (-1 >? -1) with false. cbn [andb].
  rewrite band_7, shl_8 by lia.
  repeat split. lia.
Qed.

Lemma drive_value_with_speed_witness :
  data (cmdCameraZoom (C := visca_constants) 1 (Some 0x02) (Some 3)) =
    [0x07; 256 * 0x02 + 3 mod 8] /\
  data (cmdCameraFocus (C := visca_constants) 1 (Some 0x02) (Some 3)) =
    [0x07; 256 * 0x02 + 3 mod 8] /\
  255 < 256 * 0x02 + 3 mod 8 /\
  data (cmdCameraZoom (C := visca_constants) 1 (Some 0x02) None) = [0x07; 0x02] /\
  data (cmdCameraFocus (C := visca_constants) 1 (Some 0x02) None) = [0x07; 0x02].
Proof.
  apply (drive_value_with_speed (C := visca_constants) (K := visca_catalog) 1 0x02 3).
  - lia.
  - lia.
  - discriminate.
Defined.

(** ** Direct values *)

(** X13: a direct value below 0 is not sent: the shutter, iris and aperture
    direct builders called with such a value give the reset command. *)
Theorem negative_direct_value_is_reset `{C : Constants} `{K : Catalog} `{U : Utils}
    (device v : Z) :
  v <= -1 ->
  cmdCameraShutterDirect device (Some v) = cmdCameraShutterReset device /\
  cmdCameraIrisDirect device (Some v) = cmdCameraIrisReset device /\
  cmdCameraApertureDirect device (Some v) = cmdCameraApertureReset device /\
  data (cmdCameraShutterDirect device (Some v)) = [CAM_SHUTTER; DATA_RESET] /\
  data (cmdCameraIrisDirect device (Some v)) = [CAM_IRIS; DATA_RESET] /\
  data (cmdCameraApertureDirect device (Some v)) = [CAM_APERTURE; DATA_RESET].
Proof.
  intros Hv.
  assert (Hno : (v >? -1) = false) by (rewrite Z.gtb_ltb; apply Z.ltb_ge; lia).
  unfold cmdCameraShutterDirect, cmdCameraShutterReset, cmdCameraShutter,
    cmdCameraIrisDirect, cmdCameraIrisReset, cmdCameraIris,
    cmdCameraApertureDirect, cmdCameraApertureReset, cmdCameraAperture.
  cbn [default]. rewrite Hno. change (-1 >? -1) with false.
  repeat split; unfold cmdCamera, cmd; rewrite new_data; reflexivity.
Qed.

Lemma negative_direct_value_is_reset_witness :
  cmdCameraShutterDirect (C := visca_constants) (K := visca_catalog)
    (U := nibble_utils) 1 (Some (-5))
  = cmdCameraShutterReset (C := visca_constants) (K := visca_catalog)
      (U := nibble_utils) 1.
Proof.
  apply (negative_direct_value_is_reset (C := visca_constants)
           (K := visca_catalog) (U := nibble_utils) 1 (-5)).
  lia.
Defined.

(** ** Gain *)

(** X14: the plain gain direct builder is the red gain direct builder: it
    never uses the plain gain opcode.  Its payload is the red gain opcode
    plus 0x40 followed by the expansion of the value when the value is above
    0, and the red gain opcode followed by 0 otherwise. *)
Theorem gain_direct_is_red_gain `{C : Constants} `{K : Catalog} `{U : Utils}
    (device v : Z) :
  cmdCameraGainDirect device v = cmdCameraGainRDirect device v /\
  data (cmdCameraGainDirect device v) =
    (if v >? 0 then (CAM_RGAIN + 0x40) :: i2v v else [CAM_RGAIN; 0x00]) /\
  data (cmdCameraGainBDirect device v) =
    (if v >? 0 then (CAM_BGAIN + 0x40) :: i2v v else [CAM_BGAIN; 0x00]).
Proof.
  split; [reflexivity |].
  unfold cmdCameraGainDirect, cmdCameraGainBDirect, cmdCameraGain, cmdCamera, cmd.
  rewrite !new_data. cbn [default p_data].
  change (String.eqb "r" "r") with true. change (String.eqb "b" "r") with false.
  change (String.eqb "b" "b") with true. cbv iota.
  destruct (v >? 0); split; reflexivity.
Qed.

(** X15: a gain value of 0 or less is not sent as a direct value: the red
    and blue gain direct builders called with such a value give the red and
    blue gain reset commands. *)
Theorem zero_gain_is_reset `{C : Constants} `{K : Catalog} `{U : Utils}
    (device v : Z) :
  v <= 0 ->
  cmdCameraGainRDirect device v = cmdCameraGainRReset device /\
  cmdCameraGainBDirect device v = cmdCameraGainBReset device /\
  cmdCameraGainDirect device v = cmdCameraGainRReset device.
Proof.
  intros Hv.
  assert (Hno : (v >? 0) = false) by (rewrite Z.gtb_ltb; apply Z.ltb_ge; lia).
  unfold cmdCameraGainRDirect, cmdCameraGainRReset, cmdCameraGainBDirect,
    cmdCameraGainBReset, cmdCameraGainDirect, cmdCameraGain.
  cbn [default]. rewrite Hno. change (-1 >? 0) with false.
  repeat split.
Qed.

Lemma zero_gain_is_reset_witness :
  cmdCameraGainRDirect (C := visca_constants) (K := visca_catalog)
    (U := nibble_utils) 1 0
  = cmdCameraGainRReset (C := visca_constants) (K := visca_catalog)
      (U := nibble_utils) 1.
Proof.
  apply (zero_gain_is_reset (C := visca_constants)
           (K := visca_catalog) (U := nibble_utils) 1 0).
  lia.
Defined.

(** ** Replies to catalog commands *)

Section Silence.

Context `{C : Constants}.

(** A handler of a command without the matching callback calls nothing. *)
Lemma step_silent (k : call) (c : ViscaCommand) (t : trace) :
  onAck c = None -> onError c = None ->
  invocations (snd (step k (c, t))) =
  invocations t ++
  match k, onComplete c with
  | CallComplete d, Some f =>
      [(f, let v := match dataParser c, d with
                    | Some parse, Some raw => parse raw
                    | _, _ => value_of_data d
                    end in
           if JS.is_nullish v || JS.length_is_zero v then [] else [v])]
  | _, _ => []
  end.
Proof.
  intros Ha He.
  destruct k as [| | err | d]; cbn [step].
  - cbn [snd]. symmetry. apply app_nil_r.
  - unfold handleAck. cbn [snd onAck set_status]. rewrite Ha.
    symmetry. apply app_nil_r.
  - unfold handleError. cbn [snd onError set_status]. rewrite He.
    symmetry. apply app_nil_r.
  - rewrite handleComplete_snd. cbv zeta.
    destruct (onComplete c) as [f |], (dataParser c) as [parse |], d as [raw |];
      cbn [invoke]; unfold invocations; rewrite ?flat_map_app;
      cbn [flat_map app]; rewrite ?app_nil_r; reflexivity.
Qed.

Lemma run_silent (ks : list call) (c : ViscaCommand) (t : trace) :
  onAck c = None -> onError c = None -> onComplete c = None ->
  invocations (snd (run ks (c, t))) = invocations t.
Proof.
  revert c t.
  induction ks as [| k ks IH]; intros c t Ha He Hc; [reflexivity |].
  cbn [run]. destruct (step k (c, t)) as [c' t'] eqn:Hstep.
  pose proof (step_keeps_functions k c t) as Hkeep.
  pose proof (step_silent k c t Ha He) as Hinv.
  rewrite Hstep in Hkeep, Hinv. cbn [fst snd] in Hkeep, Hinv.
  destruct Hkeep as (_ & Ha' & Hc' & He').
  rewrite IH by congruence.
  rewrite Hinv, Hc. destruct k; apply app_nil_r.
Qed.

Lemma run_only_completes (f : callback) (ks : list call) (c : ViscaCommand) (t : trace) :
  onAck c = None -> onError c = None -> onComplete c = Some f ->
  exists argss,
    invocations (snd (run ks (c, t))) = invocations t ++ map (pair f) argss /\
    List.length argss =
    List.length (filter (fun k => match k with CallComplete _ => true | _ => false end) ks).
Proof.
  revert c t.
  induction ks as [| k ks IH]; intros c t Ha He Hc.
  - exists []. split; [symmetry; apply app_nil_r | reflexivity].
  - cbn [run]. destruct (step k (c, t)) as [c' t'] eqn:Hstep.
    pose proof (step_keeps_functions k c t) as Hkeep.
    pose proof (step_silent k c t Ha He) as Hinv.
    rewrite Hstep in Hkeep, Hinv. cbn [fst snd] in Hkeep, Hinv.
    destruct Hkeep as (_ & Ha' & Hc' & He').
    destruct (IH c' t' ltac:(congruence) ltac:(congruence) ltac:(congruence))
      as (argss & Hrun & Hlen).
    rewrite Hrun, Hinv, Hc.
    destruct k as [| | err | d]; cbn [filter List.length].
    + exists argss. rewrite app_nil_r. split; [reflexivity | assumption].
    + exists argss. rewrite app_nil_r. split; [reflexivity | assumption].
    + exists argss. rewrite app_nil_r. split; [reflexivity | assumption].
    + eexists (_ :: argss). rewrite <- app_assoc. cbn [map app List.length].
      split; [reflexivity | lia].
Qed.

End Silence.

(** X16: a command built by [cmd] (and so by every setter of the catalog)
    has no callback at all: whatever replies it is given, in whatever order,
    no callback is called.  Its status still follows the last reply. *)
Theorem command_replies_call_nothing `{C : Constants}
    (recipient : option Z) (dataType : Z) (data : option (list Z))
    (description : option string) (ks : list call) (t : trace) :
  let c := cmd recipient dataType data description in
  onAck c = None /\ onComplete c = None /\ onError c = None /\
  invocations (snd (run ks (c, t))) = invocations t /\
  (forall err, status (fst (handleError c err t)) = MSGTYPE_ERROR).
Proof.
  intros c.
  assert (Ha : onAck c = None) by (unfold c, cmd; rewrite new_onAck; reflexivity).
  assert (Hc : onComplete c = None)
    by (unfold c, cmd; rewrite new_onComplete; reflexivity).
  assert (He : onError c = None) by (unfold c, cmd; rewrite new_onError; reflexivity).
  repeat split; try assumption.
  apply run_silent; assumption.
Qed.

(** X17: an inquiry built by [inquire] with a completion callback has no
    other callback: an acknowledge or an error reply calls nothing, so along
    any sequence of replies the callback calls are calls of the completion
    callback, one per completion.  Without a parser argument the inquiry gets
    the default parser. *)
Theorem inquiry_replies_call_completion_only `{C : Constants}
    (recipient : option Z) (dataType : Z) (query : list Z) (f : callback)
    (parse : option parser) (description : option string)
    (ks : list call) (t : trace) :
  let c := inquire recipient dataType query (Some f) parse description in
  dataParser c = Some (default NoParser_parse parse) /\
  invocations (snd (handleAck c t)) = invocations t /\
  (forall err, invocations (snd (handleError c err t)) = invocations t) /\
  exists argss,
    invocations (snd (run ks (c, t))) = invocations t ++ map (pair f) argss /\
    List.length argss =
    List.length (filter (fun k => match k with CallComplete _ => true | _ => false end) ks).
Proof.
  intros c.
  assert (Ha : onAck c = None) by (unfold c, inquire; rewrite new_onAck; reflexivity).
  assert (Hc : onComplete c = Some f)
    by (unfold c, inquire; rewrite new_onComplete; reflexivity).
  assert (He : onError c = None)
    by (unfold c, inquire; rewrite new_onError; reflexivity).
  split; [| split; [| split]].
  - unfold c, inquire. rewrite new_dataParser. reflexivity.
  - rewrite (step_silent CallAck c t Ha He). destruct (onComplete c); apply app_nil_r.
  - intros err. rewrite (step_silent (CallError err) c t Ha He).
    destruct (onComplete c); apply app_nil_r.
  - apply run_only_completes; assumption.
Qed.
